(** * mergekit: the merge planner and the merge driver

    A shallow embedding of [mergekit/plan.py] (class [MergePlanner]) and of
    [mergekit/merge.py] ([MergeOptions], [run_merge]) together with the
    properties of the planning and driving code.

    Python objects become records, Python exceptions become the [Raise] branch
    of a result type, and the two pieces of mutable state (the planner object
    [self] and the sequence of calls made to the collaborators of the driver)
    are threaded explicitly by a small state-and-exception monad. *)

From Stdlib Require Import String Ascii List ZArith QArith Bool Lia.
From Stdlib Require Import DecimalString.
Import ListNotations.
Local Open Scope string_scope.
Local Open Scope list_scope.
Local Open Scope Z_scope.

Set Implicit Arguments.

(* ===================================================================== *)
(** ** Python values used by the planner *)
(* ===================================================================== *)

(** [ModelReference] of [mergekit/common.py]: an immutable value with
    structural equality, used as a dictionary key. *)
Record ModelReference := mkModelReference {
  path : string;
  lora_path : option string
}.

(** Exceptions raised by the modelled code.  [ConfigurationError] is the error
    of the parameter resolver, which names the parameter and its context;
    [ValueError] is what the seeding raises for a seed it refuses; [LoadError]
    stands for whatever the loading of a model configuration or the
    architecture look-up raises. *)
Inductive exn :=
| RuntimeError (msg : string)
| TypeError (msg : string)
| IndexError (msg : string)
| ZeroDivisionError (msg : string)
| AttributeError (msg : string)
| ValueError (msg : string)
| LoadError (msg : string)
| ConfigurationError (parameter : string) (tensor : option string)
                     (model : option ModelReference).

(** Outcome of a Python call: a value, or a raised exception. *)
Inductive result (A : Type) :=
| Ok (a : A)
| Raise (e : exn).
Arguments Ok {A} a.
Arguments Raise {A} e.

(** Outcome of a call into a library: it returned, or it failed with a
    message. *)
Inductive outcome (A : Type) :=
| Returned (a : A)
| Failed (msg : string).
Arguments Returned {A} a.
Arguments Failed {A} msg.

(** A failure of the seeding is a [ValueError]; a failure of a load is a
    [LoadError]. *)
Definition seeded {A} (o : outcome A) : result A :=
  match o with
  | Returned a => Ok a
  | Failed msg => Raise (ValueError msg)
  end.

Definition loaded {A} (o : outcome A) : result A :=
  match o with
  | Returned a => Ok a
  | Failed msg => Raise (LoadError msg)
  end.

(** A list comprehension whose element expression may raise: the first
    exception ends it. *)
Fixpoint collect {A B} (f : A -> result B) (l : list A) : result (list B) :=
  match l with
  | [] => Ok []
  | x :: rest =>
      match f x with
      | Raise e => Raise e
      | Ok y =>
          match collect f rest with
          | Raise e => Raise e
          | Ok ys => Ok (y :: ys)
          end
      end
  end.

(** Configuration values carried by merge parameters. *)
Inductive Value :=
| VNone
| VBool (b : bool)
| VInt (z : Z)
| VFloat (q : Q)
| VStr (s : string).

(* ===================================================================== *)
(** ** State and exception monad

    [M S A] is a computation over a mutable store [S].  A raised exception
    keeps the store as it was when the exception left the computation: the
    mutations done so far are not undone, as in Python. *)
(* ===================================================================== *)

Definition M (S A : Type) := S -> result A * S.

Definition ret {S A} (a : A) : M S A := fun s => (Ok a, s).

Definition raise {S A} (e : exn) : M S A := fun s => (Raise e, s).

Definition bind {S A B} (m : M S A) (k : A -> M S B) : M S B :=
  fun s => match m s with
           | (Ok a, s') => k a s'
           | (Raise e, s') => (Raise e, s')
           end.

Definition get {S} : M S S := fun s => (Ok s, s).

Definition modify {S} (f : S -> S) : M S unit := fun s => (Ok tt, f s).

Definition lift_result {S A} (r : result A) : M S A := fun s => (r, s).

Declare Scope py_scope.
Delimit Scope py_scope with py.
Notation "x <- m ;; k" := (bind m (fun x => k))
  (at level 61, m at next level, right associativity) : py_scope.
Notation "m ;; k" := (bind m (fun _ => k))
  (at level 61, right associativity) : py_scope.
Local Open Scope py_scope.

(** [for x in l: body x] *)
Fixpoint for_each {S A} (l : list A) (body : A -> M S unit) : M S unit :=
  match l with
  | [] => ret tt
  | x :: rest => body x ;; for_each rest body
  end.

(** Python truthiness of the values the code tests. *)
Definition truthy_str (s : string) : bool :=
  match s with EmptyString => false | _ => true end.

Definition truthy_opt_str (o : option string) : bool :=
  match o with Some s => truthy_str s | None => false end.

Definition truthy_opt_list {A} (o : option (list A)) : bool :=
  match o with Some (_ :: _) => true | _ => false end.

Definition is_some {A} (o : option A) : bool :=
  match o with Some _ => true | None => false end.

(** [range(n)] for a Python integer [n]: empty when [n <= 0]. *)
Definition py_range (n : Z) : list Z :=
  map Z.of_nat (seq 0 (Z.to_nat n)).

(** [a / b] on Python integers (true division).  The quotient is kept as an
    exact rational; the floating-point value Python holds is its rounding. *)
Definition py_truediv (a b : Z) : result Q :=
  if b =? 0 then Raise (ZeroDivisionError "division by zero")
  else Ok (inject_Z a / inject_Z b)%Q.

(** [l[0]] and [l[-1]] on a list. *)
Definition py_first {A} (l : list A) : result A :=
  match l with
  | x :: _ => Ok x
  | [] => Raise (IndexError "list index out of range")
  end.

Definition py_last {A} (l : list A) : result A :=
  match rev l with
  | x :: _ => Ok x
  | [] => Raise (IndexError "list index out of range")
  end.

(** [name in l] on a list of strings. *)
Definition str_in (name : string) (l : list string) : bool :=
  existsb (String.eqb name) l.

(** [name_format.format(idx=i)]: every replacement field [{idx}] of the
    template is replaced by the decimal writing of [i].  The weight-name
    templates of an architecture use no other field. *)
Definition str_of_Z (z : Z) : string := NilZero.string_of_int (Z.to_int z).

Definition idx_field : string := "{idx}".

(** [skip] counts the characters of a field still to be passed over. *)
Fixpoint format_from (skip : nat) (fmt : string) (idx : Z) : string :=
  match fmt with
  | EmptyString => EmptyString
  | String c rest =>
      match skip with
      | S m => format_from m rest idx
      | O =>
          if String.prefix idx_field fmt
          then (str_of_Z idx ++ format_from 4 rest idx)%string
          else String c (format_from 0 rest idx)
      end
  end.

Definition format_idx (fmt : string) (idx : Z) : string :=
  format_from 0 fmt idx.

(** [dict(zip(keys, values))] and [d[k] = v]: a dictionary keeps the position
    of the first insertion of a key and the value of the last one. *)
Section Dict.
Variables K V : Type.
Variable eqb : K -> K -> bool.

Fixpoint dict_set (d : list (K * V)) (k : K) (v : V) : list (K * V) :=
  match d with
  | [] => [(k, v)]
  | (k', v') :: rest =>
      if eqb k k' then (k', v) :: rest else (k', v') :: dict_set rest k v
  end.

Definition dict_of (items : list (K * V)) : list (K * V) :=
  fold_left (fun d kv => dict_set d (fst kv) (snd kv)) items [].
End Dict.

Definition opt_eqb {A} (eqb : A -> A -> bool) (a b : option A) : bool :=
  match a, b with
  | Some x, Some y => eqb x y
  | None, None => true
  | _, _ => false
  end.

Definition ModelReference_eqb (a b : ModelReference) : bool :=
  String.eqb (path a) (path b) && opt_eqb String.eqb (lora_path a) (lora_path b).

(* ===================================================================== *)
(** ** The merge configuration ([mergekit/config.py], consumed here) *)
(* ===================================================================== *)

Record InputSliceDefinition := mkInputSliceDefinition {
  model : ModelReference;
  layer_range : Z * Z
}.

Record InputModelDefinition := mkInputModelDefinition {
  input_model : ModelReference;
  input_parameters : list (string * Value)
}.

Record OutputSliceDefinition := mkOutputSliceDefinition {
  sources : list InputSliceDefinition
}.

Record MergeConfiguration := mkMergeConfiguration {
  merge_method : string;
  base_model : option string;
  models : option (list InputModelDefinition);
  slices : option (list OutputSliceDefinition);
  cfg_parameters : list (string * Value);
  dtype : option string
}.

(** Architecture metadata: the weight names of a model family. *)
Record ArchitectureInfo := mkArchitectureInfo {
  pre_weights : list string;
  post_weights : list string;
  layer_weight_formats : list string;
  embed_weights : list string;
  num_layers_config_key : string
}.

Definition list_str_eqb (a b : list string) : bool :=
  if list_eq_dec String.string_dec a b then true else false.

(** [a == b] on architecture infos: field by field. *)
Definition ArchitectureInfo_eqb (a b : ArchitectureInfo) : bool :=
  list_str_eqb (pre_weights a) (pre_weights b)
  && list_str_eqb (post_weights a) (post_weights b)
  && list_str_eqb (layer_weight_formats a) (layer_weight_formats b)
  && list_str_eqb (embed_weights a) (embed_weights b)
  && String.eqb (num_layers_config_key a) (num_layers_config_key b).

(** [class MergeOptions(BaseModel)] with its defaults. *)
Record MergeOptions := mkMergeOptions {
  allow_crimes : bool;
  transformers_cache : option string;
  lora_merge_cache : option string;
  cuda : bool;
  low_cpu_memory : bool;
  out_shard_size : Z;
  copy_tokenizer : bool;
  clone_tensors : bool;
  trust_remote_code : bool;
  random_seed : option Z;
  lazy_unpickle : bool
}.

(** [MergeOptions()]; [parse_kmb("5B")] is five thousand millions. *)
Definition default_MergeOptions : MergeOptions :=
  {| allow_crimes := false;
     transformers_cache := None;
     lora_merge_cache := None;
     cuda := false;
     low_cpu_memory := false;
     out_shard_size := 5000000000;
     copy_tokenizer := true;
     clone_tensors := false;
     trust_remote_code := false;
     random_seed := None;
     lazy_unpickle := false |}.

Definition set_allow_crimes (b : bool) (o : MergeOptions) : MergeOptions :=
  {| allow_crimes := b;
     transformers_cache := transformers_cache o;
     lora_merge_cache := lora_merge_cache o;
     cuda := cuda o;
     low_cpu_memory := low_cpu_memory o;
     out_shard_size := out_shard_size o;
     copy_tokenizer := copy_tokenizer o;
     clone_tensors := clone_tensors o;
     trust_remote_code := trust_remote_code o;
     random_seed := random_seed o;
     lazy_unpickle := lazy_unpickle o |}.

(* ===================================================================== *)
(** ** Tasks ([mergekit/tasks.py], [mergekit/merge_methods]) *)
(* ===================================================================== *)

Record TensorWriterTask := mkTensorWriterTask {
  out_path : string;
  max_shard_size : Z
}.

Record BuildTokenizer := mkBuildTokenizer {
  merge_config : MergeConfiguration;
  bt_trust_remote_code : bool
}.

(** A merge method: one found in the registry under its name, or the
    vocabulary-aligning merge used for embedding weights. *)
Inductive MergeMethod :=
| RegisteredMethod (method_name : string)
| TokenizerPermutationMerge (tokenizer_task : BuildTokenizer).

(** [merge_methods.get(name)] *)
Definition merge_methods_get (method_name : string) : MergeMethod :=
  RegisteredMethod method_name.

Record ParameterDefinition := mkParameterDefinition {
  name : string;
  required : bool;
  default_value : Value
}.

Record GatherTensors := mkGatherTensors {
  tensor_names : list (ModelReference * string);
  gather_dtype : option string
}.

(** The task returned by [method.make_task(...)]: it is determined by the
    method and by the keyword arguments of the call. *)
Record MergeTensorTask := mkMergeTensorTask {
  task_method : MergeMethod;
  output_tensor_name : string;
  tensors : GatherTensors;
  parameters : list (string * Value);
  tensor_parameters : list (ModelReference * list (string * Value));
  task_base_model : option ModelReference
}.

Record SaveTensor := mkSaveTensor {
  tensor_name : string;
  tensor_task : MergeTensorTask;
  writer_task : TensorWriterTask;
  clone : bool
}.

(** The tasks a plan lists. *)
#[warnings="-register-all"]
Inductive Task :=
| SaveTensorTask (save : SaveTensor)
| FinalizeModel (tensor_save_tasks : list Task) (finalize_writer : TensorWriterTask)
| BuildTokenizerTask (tokenizer : BuildTokenizer).

Definition is_save (t : Task) : bool :=
  match t with SaveTensorTask _ => true | _ => false end.

Definition is_finalize (t : Task) : bool :=
  match t with FinalizeModel _ _ => true | _ => false end.

Definition is_build_tokenizer (t : Task) : bool :=
  match t with BuildTokenizerTask _ => true | _ => false end.

(** The output names of the save tasks of a list, in order. *)
Definition save_names (l : list Task) : list string :=
  flat_map (fun t => match t with
                     | SaveTensorTask s => [tensor_name s]
                     | _ => []
                     end) l.

(* ===================================================================== *)
(** ** Collaborators

    The modules the planner and the driver call but which are specified only
    at their interface: the configuration reader, the model references, the
    architecture lookup, the merge-method registry, the executor and the
    tokenizer loader. *)
(* ===================================================================== *)

(** The configuration of a model ([transformers.PretrainedConfig]): the
    model it was loaded from and the attributes the driver sets. *)
Record PretrainedConfig := mkPretrainedConfig {
  config_of : ModelReference;
  torch_dtype : option string;
  vocab_size : option Z;
  layer_count : option (string * Z)
}.

(** What a finished task hands to the driver. *)
Record Tokenizer := mkTokenizer {
  tokenizer_source : string;
  vocab : result (list string)
}.

Inductive TaskValue :=
| TensorValue
| ControlValue
| TokenizerInfo (info_tokenizer : Tokenizer).

Class Collaborators := {
  (** [ConfigReader]: the scoped view on the configuration. *)
  ConfigReader : Type;
  (** [ConfigReader(config=, t=, tensor_name=, slice_out=)] *)
  new_ConfigReader : MergeConfiguration -> Q -> option string ->
                     option OutputSliceDefinition -> ConfigReader;
  for_in_slices : ConfigReader -> option (list InputSliceDefinition) -> ConfigReader;
  for_tensor : ConfigReader -> string -> ConfigReader;
  with_t : ConfigReader -> Q -> ConfigReader;
  (** [reader.parameter(name, model=, required=, default=)]; [None] stands
      for the configuration error of a required parameter that no scope
      defines. *)
  parameter : ConfigReader -> string -> option ModelReference -> bool -> Value ->
              option Value;
  (** [config.referenced_models()] *)
  referenced_models : MergeConfiguration -> list ModelReference;
  (** [ModelReference.parse(text)] *)
  ModelReference_parse : string -> ModelReference;
  (** [transformers.trainer_utils.set_seed(seed)] *)
  set_seed : Z -> outcome unit;
  (** [m.config()]: the configuration of a model, loaded from its files. *)
  model_config : ModelReference -> outcome PretrainedConfig;
  (** [get_architecture_info(config)] *)
  get_architecture_info : PretrainedConfig -> outcome ArchitectureInfo;
  (** [method.parameters()] and [method.tensor_parameters()] *)
  method_parameters : MergeMethod -> list ParameterDefinition;
  method_tensor_parameters : MergeMethod -> list ParameterDefinition;
  (** [Executor(tasks=, math_device=, storage_device=).run()]: the completed
      tasks with their values, in completion order. *)
  executor_run : list Task -> string -> string -> result (list (Task * TaskValue));
  (** [transformers.AutoTokenizer.from_pretrained(path)] *)
  from_pretrained : string -> result Tokenizer
}.

(* ===================================================================== *)
(** ** [class MergePlanner] *)
(* ===================================================================== *)

Record MergePlanner := mkMergePlanner {
  config : MergeConfiguration;
  arch_info : ArchitectureInfo;
  planner_clone_tensors : bool;
  _writer_task : TensorWriterTask;
  _method : MergeMethod;
  _tasks : list Task;
  _current_layers : Z;
  _tokenizer_task : option BuildTokenizer
}.

(** [self._tasks = l] *)
Definition set_tasks (l : list Task) (self : MergePlanner) : MergePlanner :=
  {| config := config self;
     arch_info := arch_info self;
     planner_clone_tensors := planner_clone_tensors self;
     _writer_task := _writer_task self;
     _method := _method self;
     _tasks := l;
     _current_layers := _current_layers self;
     _tokenizer_task := _tokenizer_task self |}.

(** [self._tasks.append(t)] *)
Definition append_task (t : Task) (self : MergePlanner) : MergePlanner :=
  set_tasks (_tasks self ++ [t]) self.

(** [MergePlanner.__init__(self, config, arch_info, out_path, options)].
    The class attributes give [_tasks], [_current_layers] and
    [_tokenizer_task] their initial values. *)
Definition MergePlanner_init (config : MergeConfiguration)
    (arch_info : ArchitectureInfo) (out_path : string) (options : MergeOptions)
  : MergePlanner :=
  {| config := config;
     arch_info := arch_info;
     planner_clone_tensors := clone_tensors options;
     _writer_task := {| out_path := out_path;
                        max_shard_size := out_shard_size options |};
     _method := merge_methods_get (merge_method config);
     _tasks := [];
     _current_layers := 0;
     _tokenizer_task :=
       if truthy_str (merge_method config)
       then Some {| merge_config := config;
                    bt_trust_remote_code := trust_remote_code options |}
       else None |}.

(** [o[0]] and [o[-1]] on an optional list. *)
Definition subscript_first {A} (o : option (list A)) : result A :=
  match o with
  | Some l => py_first l
  | None => Raise (TypeError "'NoneType' object is not subscriptable")
  end.

Definition subscript_last {A} (o : option (list A)) : result A :=
  match o with
  | Some l => py_last l
  | None => Raise (TypeError "'NoneType' object is not subscriptable")
  end.

(** [for x in o] on an optional list. *)
Definition iterate {A} (o : option (list A)) : result (list A) :=
  match o with
  | Some l => Ok l
  | None => Raise (TypeError "'NoneType' object is not iterable")
  end.

(** [all(s == l[0] for s in l)]: [l[0]] is read only for an element of [l]. *)
Definition all_equal_first (l : list Z) : bool :=
  match l with
  | [] => true
  | first :: _ => forallb (fun s => s =? first) l
  end.

Section Planner.
Context `{Collaborators}.

(** One dictionary of resolved parameters: [d[p.name] = cfg.parameter(...)]
    for each declared parameter [p]. *)
Fixpoint resolve_parameters (cfg : ConfigReader) (tensor : string)
    (model : option ModelReference) (ps : list ParameterDefinition)
    (d : list (string * Value)) : result (list (string * Value)) :=
  match ps with
  | [] => Ok d
  | p :: rest =>
      match parameter cfg (name p) model (required p) (default_value p) with
      | Some v => resolve_parameters cfg tensor model rest
                    (dict_set String.eqb d (name p) v)
      | None => Raise (ConfigurationError (name p) (Some tensor) model)
      end
  end.

(** The loop over [zip(models, names_in)] filling [tensor_params]. *)
Fixpoint resolve_tensor_parameters (cfg_reader : ConfigReader)
    (ps : list ParameterDefinition) (items : list (ModelReference * string))
    (d : list (ModelReference * list (string * Value)))
  : result (list (ModelReference * list (string * Value))) :=
  match items with
  | [] => Ok d
  | (model, name_in) :: rest =>
      match resolve_parameters (for_tensor cfg_reader name_in) name_in
              (Some model) ps [] with
      | Ok inner => resolve_tensor_parameters cfg_reader ps rest
                      (dict_set ModelReference_eqb d model inner)
      | Raise e => Raise e
      end
  end.

(** The merge method of one weight (the first lines of [plan_tensor]). *)
Definition tensor_merge_method_of (self : MergePlanner) (name : string)
  : MergeMethod :=
  let is_embed := str_in name (embed_weights (arch_info self)) in
  match _tokenizer_task self with
  | Some tok => if is_embed then TokenizerPermutationMerge tok else _method self
  | None => _method self
  end.

Definition plan_tensor (name : string) (names_in : list string)
    (models : list ModelReference) (cfg_reader : ConfigReader)
  : M MergePlanner unit :=
  self <- get ;;
  let tensor_merge_method := tensor_merge_method_of self name in
  let cfg_g := for_tensor (for_in_slices cfg_reader None) name in
  global_params <- lift_result
    (resolve_parameters cfg_g name None
       (method_parameters tensor_merge_method) []) ;;
  tensor_params <- lift_result
    (resolve_tensor_parameters cfg_reader
       (method_tensor_parameters tensor_merge_method)
       (combine models names_in) []) ;;
  let gather_tensors :=
    {| tensor_names := dict_of ModelReference_eqb (combine models names_in);
       gather_dtype := dtype (config self) |} in
  let base_model :=
    if truthy_opt_str (base_model (config self))
    then option_map ModelReference_parse (base_model (config self))
    else None in
  let tensor_task :=
    {| task_method := tensor_merge_method;
       output_tensor_name := name;
       tensors := gather_tensors;
       parameters := global_params;
       tensor_parameters := tensor_params;
       task_base_model := base_model |} in
  let save_task :=
    {| tensor_name := name;
       tensor_task := tensor_task;
       writer_task := _writer_task self;
       clone := planner_clone_tensors self |} in
  modify (append_task (SaveTensorTask save_task)).

Definition plan_layer (sources : list InputSliceDefinition) (layer_offset : Z)
    (t : Q) (cfg_reader : ConfigReader) : M MergePlanner unit :=
  self <- get ;;
  for_each (layer_weight_formats (arch_info self)) (fun name_format =>
    self <- get ;;
    let name_out := format_idx name_format (_current_layers self) in
    let names_in :=
      map (fun s => format_idx name_format (fst (layer_range s) + layer_offset))
          sources in
    plan_tensor name_out names_in (map model sources) (with_t cfg_reader t)).

(** The interpolation fraction of layer [idx] of a slice of [num_layers]
    layers (the first statement of the loop of [plan_slice]). *)
Definition layer_t (num_layers idx : Z) : result Q :=
  if num_layers >? 1 then py_truediv idx (num_layers - 1) else Ok 1%Q.

Definition slice_lengths_of (definition : OutputSliceDefinition) : list Z :=
  map (fun s => snd (layer_range s) - fst (layer_range s)) (sources definition).

Definition plan_slice (definition : OutputSliceDefinition) : M MergePlanner unit :=
  let slice_lengths := slice_lengths_of definition in
  if negb (all_equal_first slice_lengths)
  then raise (RuntimeError
                "All inputs to a slice must contain the same number of layers")
  else
    num_layers <- lift_result (py_first slice_lengths) ;;
    self <- get ;;
    let cfg_reader := new_ConfigReader (config self) 0%Q None (Some definition) in
    for_each (py_range num_layers) (fun idx =>
      t <- lift_result (layer_t num_layers idx) ;;
      plan_layer (sources definition) idx t
        (for_in_slices cfg_reader (Some (sources definition)))).

(** The three planning loops of [plan], between the reset of [_tasks] and
    the finalizer. *)
Definition plan_weights : M MergePlanner unit :=
  self <- get ;;
  for_each (pre_weights (arch_info self)) (fun weight_name =>
    self <- get ;;
    first <- lift_result (subscript_first (slices (config self))) ;;
    plan_tensor weight_name
      (repeat weight_name (length (sources first)))
      (map model (sources first))
      (new_ConfigReader (config self) 0%Q (Some weight_name) None)) ;;
  out_slices <- lift_result (iterate (slices (config self))) ;;
  for_each out_slices plan_slice ;;
  for_each (post_weights (arch_info self)) (fun weight_name =>
    self <- get ;;
    last <- lift_result (subscript_last (slices (config self))) ;;
    plan_tensor weight_name
      (repeat weight_name (length (sources last)))
      (map model (sources last))
      (new_ConfigReader (config self) 1%Q (Some weight_name) None)).

Definition plan : M MergePlanner (list Task) :=
  modify (set_tasks []) ;;
  plan_weights ;;
  self <- get ;;
  modify (append_task (FinalizeModel (_tasks self) (_writer_task self))) ;;
  self <- get ;;
  let res := _tasks self in
  ret (match _tokenizer_task self with
       | Some tok => res ++ [BuildTokenizerTask tok]
       | None => res
       end).
End Planner.

(* ===================================================================== *)
(** ** Calling a Python function

    The binding of the arguments of a call to the declared parameters of the
    callee, for a callee without defaults and without variadic parameters.  Keyword
    arguments are bound, and refused, before the positional count and the
    missing parameters are looked at. *)
(* ===================================================================== *)

Inductive PyObj :=
| ObjConfig (c : MergeConfiguration)
| ObjArch (a : ArchitectureInfo)
| ObjOptions (o : MergeOptions)
| ObjStr (s : string)
| ObjInt (z : Z)
| ObjBool (b : bool).

Definition bound_lookup (k : string) (b : list (string * PyObj)) : option PyObj :=
  option_map snd (find (fun kv => String.eqb k (fst kv)) b).

Fixpoint bind_keywords (params : list string) (kwargs : list (string * PyObj))
    (bound : list (string * PyObj)) : result (list (string * PyObj)) :=
  match kwargs with
  | [] => Ok bound
  | (k, v) :: rest =>
      if negb (str_in k params)
      then Raise (TypeError ("got an unexpected keyword argument '" ++ k ++ "'"))
      else if is_some (bound_lookup k bound)
      then Raise (TypeError ("got multiple values for argument '" ++ k ++ "'"))
      else bind_keywords params rest (bound ++ [(k, v)])
  end.

Definition bind_arguments (params : list string) (args : list PyObj)
    (kwargs : list (string * PyObj)) : result (list (string * PyObj)) :=
  match bind_keywords params kwargs (combine params args) with
  | Raise e => Raise e
  | Ok bound =>
      if (length params <? length args)%nat
      then Raise (TypeError "too many positional arguments")
      else
        match filter (fun p => negb (is_some (bound_lookup p bound))) params with
        | [] => Ok bound
        | p :: _ =>
            Raise (TypeError ("missing required positional argument '" ++ p ++ "'"))
        end
  end.

(** The parameters [MergePlanner.__init__] declares after [self]. *)
Definition MergePlanner_init_params : list string :=
  ["config"; "arch_info"; "out_path"; "options"].

(** A call of the class [MergePlanner] with positional and keyword
    arguments. *)
Definition MergePlanner_call (args : list PyObj) (kwargs : list (string * PyObj))
  : result MergePlanner :=
  match bind_arguments MergePlanner_init_params args kwargs with
  | Raise e => Raise e
  | Ok bound =>
      match bound_lookup "config" bound, bound_lookup "arch_info" bound,
            bound_lookup "out_path" bound, bound_lookup "options" bound with
      | Some (ObjConfig c), Some (ObjArch a), Some (ObjStr p), Some (ObjOptions o) =>
          Ok (MergePlanner_init c a p o)
      | _, _, _, _ => Raise (AttributeError "object has no such attribute")
      end
  end.

(* ===================================================================== *)
(** ** [mergekit/merge.py] *)
(* ===================================================================== *)

(** What the driver does to the outside world, in order; [SetSeed] is the
    call of the seeding, whether it returns or raises. *)
#[warnings="-register-all"]
Inductive Event :=
| SetSeed (seed : Z)
| LoaderCacheOptions (lazy : bool) (lora_cache_dir hf_cache_dir : option string)
| LoaderCacheGet (m : ModelReference)
| ExecutorRun (tasks : list Task) (math_device storage_device : string)
| LogWarning (msg : string)
| LogError (msg : string)
| ConfigSaved (cfg_out : PretrainedConfig) (to : string)
| TokenizerSaved (tok : Tokenizer) (to : string).

Definition emit (e : Event) : M (list Event) unit :=
  modify (fun trace => trace ++ [e]).

(** [all(a == infos[0] for a in infos[1:])] *)
Definition all_same_architecture (infos : list ArchitectureInfo) : bool :=
  match infos with
  | [] => true
  | first :: rest => forallb (fun a => ArchitectureInfo_eqb a first) rest
  end.

(** The events of a run that all belong to planning, execution or output. *)
Definition is_work (e : Event) : bool :=
  match e with
  | LoaderCacheGet _ | ExecutorRun _ _ _ | ConfigSaved _ _ | TokenizerSaved _ _ => true
  | _ => false
  end.

Section Driver.
Context `{Collaborators}.

(** [res.torch_dtype = dtype] *)
Definition set_torch_dtype (d : option string) (c : PretrainedConfig)
  : PretrainedConfig :=
  {| config_of := config_of c; torch_dtype := d;
     vocab_size := vocab_size c; layer_count := layer_count c |}.

(** [_model_out_config(config)] *)
Definition _model_out_config (config : MergeConfiguration) : result PretrainedConfig :=
  let from (m : ModelReference) :=
    match loaded (model_config m) with
    | Ok res =>
        Ok (if truthy_opt_str (dtype config)
            then set_torch_dtype (dtype config) res
            else res)
    | Raise e => Raise e
    end in
  match base_model config with
  | Some (String c rest as text) => from (ModelReference_parse text)
  | _ =>
      match py_first (referenced_models config) with
      | Ok m => from m
      | Raise e => Raise e
      end
  end.

(** [_get_donor_tokenizer(merge_config)]: any exception is logged and
    [None] returned. *)
Definition _get_donor_tokenizer (merge_config : MergeConfiguration)
  : M (list Event) (option Tokenizer) :=
  let donor_model :=
    match base_model merge_config with
    | Some (String c rest as text) => Ok (ModelReference_parse text)
    | _ => py_first (referenced_models merge_config)
    end in
  match donor_model with
  | Ok donor =>
      match from_pretrained (path donor) with
      | Ok tok => ret (Some tok)
      | Raise _ => emit (LogError "Failed to copy tokenizer") ;; ret None
      end
  | Raise _ => emit (LogError "Failed to copy tokenizer") ;; ret None
  end.

(** The tokenizer of the last [TokenizerInfo] value of a run. *)
Definition last_tokenizer (values : list (Task * TaskValue)) : option Tokenizer :=
  fold_left (fun acc tv => match snd tv with
                           | TokenizerInfo tok => Some tok
                           | _ => acc
                           end) values None.

(** [sum(s.sources[0].layer_range[1] - s.sources[0].layer_range[0]
         for s in merge_config.slices)] *)
Fixpoint sum_first_lengths (l : list OutputSliceDefinition) (acc : Z) : result Z :=
  match l with
  | [] => Ok acc
  | s :: rest =>
      match py_first (sources s) with
      | Ok src => sum_first_lengths rest
                    (acc + (snd (layer_range src) - fst (layer_range src)))
      | Raise e => Raise e
      end
  end.

Definition output_num_layers (merge_config : MergeConfiguration) : result Z :=
  match iterate (slices merge_config) with
  | Ok l => sum_first_lengths l 0
  | Raise e => Raise e
  end.

Definition set_vocab_size (v : Z) (c : PretrainedConfig) : PretrainedConfig :=
  {| config_of := config_of c; torch_dtype := torch_dtype c;
     vocab_size := Some v; layer_count := layer_count c |}.

Definition set_layer_count (key : string) (n : Z) (c : PretrainedConfig)
  : PretrainedConfig :=
  {| config_of := config_of c; torch_dtype := torch_dtype c;
     vocab_size := vocab_size c; layer_count := Some (key, n) |}.

(** The part of [run_merge] after the plan is built: warm-up, execution and
    the writing of the configuration and of the tokenizer. *)
Definition execute_and_write (merge_config : MergeConfiguration)
    (out_path : string) (options : MergeOptions) (arch_info : ArchitectureInfo)
    (targets : list Task) : M (list Event) unit :=
  for_each (referenced_models merge_config) (fun m => emit (LoaderCacheGet m)) ;;
  let math_device := if cuda options then "cuda" else "cpu" in
  let storage_device := if low_cpu_memory options then "cuda" else "cpu" in
  emit (ExecutorRun targets math_device storage_device) ;;
  values <- lift_result (executor_run targets math_device storage_device) ;;
  let tokenizer := last_tokenizer values in
  cfg_out <- lift_result (_model_out_config merge_config) ;;
  cfg_out <- match tokenizer with
             | Some tok =>
                 match vocab tok with
                 | Ok words =>
                     ret (set_vocab_size (Z.of_nat (length words)) cfg_out)
                 | Raise _ =>
                     emit (LogWarning "Unable to set vocabulary size in output config") ;;
                     ret cfg_out
                 end
             | None => ret cfg_out
             end ;;
  cfg_out <- match output_num_layers merge_config with
             | Ok num_layers =>
                 ret (set_layer_count (num_layers_config_key arch_info)
                        num_layers cfg_out)
             | Raise _ =>
                 emit (LogWarning "Unable to set number of layers in output config") ;;
                 ret cfg_out
             end ;;
  emit (ConfigSaved cfg_out out_path) ;;
  tokenizer <- match tokenizer with
               | None => if copy_tokenizer options
                         then _get_donor_tokenizer merge_config
                         else ret None
               | Some tok => ret (Some tok)
               end ;;
  match tokenizer with
  | Some tok => emit (TokenizerSaved tok out_path)
  | None => ret tt
  end.

(** [[get_architecture_info(m.config())
         for m in merge_config.referenced_models()]] *)
Definition architecture_infos (merge_config : MergeConfiguration)
  : result (list ArchitectureInfo) :=
  collect (fun m => match loaded (model_config m) with
                    | Ok cfg => loaded (get_architecture_info cfg)
                    | Raise e => Raise e
                    end)
          (referenced_models merge_config).

(** The outcome of the seeding of a run: [set_seed] is called when the
    options carry a seed. *)
Definition seeding (options : MergeOptions) : result unit :=
  match random_seed options with
  | Some seed => seeded (set_seed seed)
  | None => Ok tt
  end.

Definition run_merge (merge_config : MergeConfiguration) (out_path : string)
    (options : MergeOptions) : M (list Event) unit :=
  match random_seed options with
  | Some seed => emit (SetSeed seed) ;; lift_result (seeded (set_seed seed))
  | None => ret tt
  end ;;
  if negb (truthy_opt_list (models merge_config))
     && negb (truthy_opt_list (slices merge_config))
  then raise (RuntimeError "No output requested")
  else
    model_arch_info <- lift_result (architecture_infos merge_config) ;;
    (if negb (allow_crimes options)
     then if negb (all_same_architecture model_arch_info)
          then raise (RuntimeError
                 "Must specify --allow-crimes to attempt to mix different architectures")
          else ret tt
     else ret tt) ;;
    arch_info <- lift_result (py_first model_arch_info) ;;
    emit (LoaderCacheOptions (lazy_unpickle options) (lora_merge_cache options)
            (transformers_cache options)) ;;
    planner <- lift_result
      (MergePlanner_call
         [ObjConfig merge_config; ObjArch arch_info]
         [("out_path", ObjStr out_path);
          ("max_shard_size", ObjInt (out_shard_size options));
          ("clone_tensors", ObjBool (clone_tensors options))]) ;;
    targets <- lift_result (fst (plan planner)) ;;
    execute_and_write merge_config out_path options arch_info targets.
End Driver.

(* ===================================================================== *)
(** ** A concrete set of collaborators

    Used to run the planner and the driver on concrete configurations. *)
(* ===================================================================== *)

Record SampleReader := mkSampleReader {
  reader_config : MergeConfiguration;
  reader_t : Q;
  reader_tensor_name : option string;
  reader_slice_out : option OutputSliceDefinition;
  reader_slices_in : option (list InputSliceDefinition)
}.

Definition assoc (k : string) (d : list (string * Value)) : option Value :=
  option_map snd (find (fun kv => String.eqb k (fst kv)) d).

(** Modelled from the spec: the parameter resolver (its module is not part of
    the sources), restricted to the scopes a configuration of this model can
    express: the value given for the model, then the top-level value, then
    the static default; a required parameter found nowhere is an error. *)
Definition sample_parameter (r : SampleReader) (pname : string)
    (m : option ModelReference) (req : bool) (default : Value) : option Value :=
  let of_model :=
    match m, models (reader_config r) with
    | Some mr, Some defs =>
        match find (fun d => ModelReference_eqb (input_model d) mr) defs with
        | Some d => assoc pname (input_parameters d)
        | None => None
        end
    | _, _ => None
    end in
  match of_model with
  | Some v => Some v
  | None =>
      match assoc pname (cfg_parameters (reader_config r)) with
      | Some v => Some v
      | None => if req then None else Some default
      end
  end.

Definition add_model (seen : list ModelReference) (m : ModelReference)
  : list ModelReference :=
  if existsb (ModelReference_eqb m) seen then seen else seen ++ [m].

(** The distinct models a configuration names. *)
Definition sample_referenced_models (c : MergeConfiguration) : list ModelReference :=
  let of_base := match base_model c with
                 | Some (String a rest as text) => [mkModelReference text None]
                 | _ => []
                 end in
  let of_models := match models c with
                   | Some l => map input_model l
                   | None => []
                   end in
  let of_slices := match slices c with
                   | Some l => flat_map (fun s => map model (sources s)) l
                   | None => []
                   end in
  fold_left add_model (of_base ++ of_models ++ of_slices) [].

Definition gpt2_info : ArchitectureInfo :=
  {| pre_weights := ["wte.weight"; "wpe.weight"];
     post_weights := ["ln_f.weight"; "ln_f.bias"];
     layer_weight_formats := ["h.{idx}.attn.c_attn.weight"; "h.{idx}.mlp.c_fc.weight"];
     embed_weights := ["wte.weight"];
     num_layers_config_key := "n_layer" |}.

Definition llama_info : ArchitectureInfo :=
  {| pre_weights := ["model.embed_tokens.weight"];
     post_weights := ["model.norm.weight"; "lm_head.weight"];
     layer_weight_formats := ["model.layers.{idx}.self_attn.q_proj.weight"];
     embed_weights := ["model.embed_tokens.weight"; "lm_head.weight"];
     num_layers_config_key := "num_hidden_layers" |}.

Definition sample_architecture (m : ModelReference) : ArchitectureInfo :=
  if String.prefix "gpt2" (path m) then gpt2_info else llama_info.

(** The seeding hands the seed to a generator that takes the seeds from 0
    to [2**32 - 1] only. *)
Definition sample_set_seed (seed : Z) : outcome unit :=
  if (0 <=? seed) && (seed <? 2 ^ 32) then Returned tt
  else Failed "Seed must be between 0 and 2**32 - 1".

(** The models whose path starts with [missing] have no configuration
    file. *)
Definition sample_model_config (m : ModelReference) : outcome PretrainedConfig :=
  if String.prefix "missing" (path m)
  then Failed "no configuration file"
  else Returned (mkPretrainedConfig m None None None).

Definition sample_method_parameters (m : MergeMethod) : list ParameterDefinition :=
  match m with
  | RegisteredMethod "linear" => [mkParameterDefinition "normalize" false (VBool true)]
  | RegisteredMethod "slerp" => [mkParameterDefinition "t" true VNone]
  | _ => []
  end.

Definition sample_method_tensor_parameters (m : MergeMethod) : list ParameterDefinition :=
  match m with
  | RegisteredMethod "linear" => [mkParameterDefinition "weight" true VNone]
  | _ => []
  end.

Definition sample_value (t : Task) : TaskValue :=
  match t with
  | SaveTensorTask _ => TensorValue
  | FinalizeModel _ _ => ControlValue
  | BuildTokenizerTask b =>
      TokenizerInfo (mkTokenizer (merge_method (merge_config b)) (Ok ["a"; "b"]))
  end.

Definition sample : Collaborators :=
  {| ConfigReader := SampleReader;
     new_ConfigReader := fun c t n s => mkSampleReader c t n s None;
     for_in_slices := fun r l =>
       mkSampleReader (reader_config r) (reader_t r) (reader_tensor_name r)
         (reader_slice_out r) l;
     for_tensor := fun r n =>
       mkSampleReader (reader_config r) (reader_t r) (Some n)
         (reader_slice_out r) (reader_slices_in r);
     with_t := fun r t =>
       mkSampleReader (reader_config r) t (reader_tensor_name r)
         (reader_slice_out r) (reader_slices_in r);
     parameter := sample_parameter;
     referenced_models := sample_referenced_models;
     ModelReference_parse := fun text => mkModelReference text None;
     set_seed := sample_set_seed;
     model_config := sample_model_config;
     get_architecture_info := fun cfg => Returned (sample_architecture (config_of cfg));
     method_parameters := sample_method_parameters;
     method_tensor_parameters := sample_method_tensor_parameters;
     executor_run := fun tasks _ _ => Ok (map (fun t => (t, sample_value t)) tasks);
     from_pretrained := fun p => Ok (mkTokenizer p (Ok ["a"])) |}.

Definition gpt2 : ModelReference := mkModelReference "gpt2" None.

(** The configuration of [test_gpt2_copy]. *)
Definition gpt2_copy_config : MergeConfiguration :=
  {| merge_method := "passthrough";
     base_model := None;
     models := Some [mkInputModelDefinition gpt2 []];
     slices := None;
     cfg_parameters := [];
     dtype := Some "bfloat16" |}.

(** One model, one slice of [layers] layers. *)
Definition gpt2_slice_config (method : string) (layers : Z) : MergeConfiguration :=
  {| merge_method := method;
     base_model := None;
     models := None;
     slices := Some [mkOutputSliceDefinition [mkInputSliceDefinition gpt2 (0, layers)]];
     cfg_parameters := [];
     dtype := Some "bfloat16" |}.

Definition llama : ModelReference := mkModelReference "llama-2-7b" None.

(** Two models of different families merged linearly. *)
Definition mixed_config : MergeConfiguration :=
  {| merge_method := "linear";
     base_model := None;
     models := Some [mkInputModelDefinition gpt2 [("weight", VFloat (3 # 5))];
                     mkInputModelDefinition llama [("weight", VFloat (2 # 5))]];
     slices := None;
     cfg_parameters := [];
     dtype := None |}.

(** A configuration that asks for nothing. *)
Definition empty_config : MergeConfiguration :=
  {| merge_method := "linear";
     base_model := None;
     models := None;
     slices := Some [];
     cfg_parameters := [];
     dtype := None |}.

Definition gpt2_planner (method : string) (layers : Z) : MergePlanner :=
  MergePlanner_init (gpt2_slice_config method layers) gpt2_info "out"
    default_MergeOptions.

(** The events of the seeding step of [run_merge]. *)
Definition seed_events (options : MergeOptions) : list Event :=
  match random_seed options with
  | Some seed => [SetSeed seed]
  | None => []
  end.

(** A configuration requests an output when its model list or its slice list
    is present and not empty. *)
Definition output_requested (c : MergeConfiguration) : bool :=
  truthy_opt_list (models c) || truthy_opt_list (slices c).

Definition no_output_message : string := "No output requested".

Definition mixing_message : string :=
  "Must specify --allow-crimes to attempt to mix different architectures".

Definition unexpected_keyword_message : string :=
  "got an unexpected keyword argument 'max_shard_size'".

Definition slice_length_message : string :=
  "All inputs to a slice must contain the same number of layers".

(** The interpolation fraction as the specification words it: the index
    over the layer count less one, or one for a slice of exactly one layer. *)
Definition interpolation_fraction (layerCount index : Z) : Q :=
  if layerCount =? 1 then 1%Q
  else (inject_Z index / inject_Z (layerCount - 1))%Q.

(** The layer count of one source of a slice. *)
Definition layers_of (s : InputSliceDefinition) : Z :=
  snd (layer_range s) - fst (layer_range s).

(** [self'] is [self] with save tasks appended to [_tasks], every other
    attribute being left as it is. *)
Definition grows (self self' : MergePlanner) : Prop :=
  exists added,
    forallb is_save added = true
    /\ self' = set_tasks (_tasks self ++ added) self.

(** The tokenizer task as the tail of a plan. *)
Definition tokenizer_tail (self : MergePlanner) : list Task :=
  match _tokenizer_task self with
  | Some tok => [BuildTokenizerTask tok]
  | None => []
  end.

(** The exceptions of the parameter resolver, and those that are not a
    [RuntimeError]. *)
Definition is_configuration_error (e : exn) : Prop :=
  exists p t m, e = ConfigurationError p t m.

Definition not_runtime_error (e : exn) : Prop := forall msg, e <> RuntimeError msg.

(** The reader [plan_slice] hands to every layer of a slice. *)
Definition slice_reader `{Collaborators} (definition : OutputSliceDefinition)
    (self : MergePlanner) : ConfigReader :=
  for_in_slices (new_ConfigReader (config self) 0%Q None (Some definition))
    (Some (sources definition)).

(** The tasks of a returned plan; no task for a raised exception. *)
Definition planned_tasks (r : result (list Task)) : list Task :=
  match r with
  | Ok l => l
  | Raise _ => []
  end.

(** A slice whose two sources span two layers and three layers. *)
Definition uneven_slice : OutputSliceDefinition :=
  mkOutputSliceDefinition
    [mkInputSliceDefinition gpt2 (0, 2); mkInputSliceDefinition gpt2 (4, 7)].

(** A slice of three layers taken from one model. *)
Definition three_layer_slice : OutputSliceDefinition :=
  mkOutputSliceDefinition [mkInputSliceDefinition gpt2 (2, 5)].

(** The slices of a configuration are well formed when there is at least one
    and each has at least one source, all of one length. *)
Definition well_formed_slices (c : MergeConfiguration) : Prop :=
  exists first rest,
    slices c = Some (first :: rest)
    /\ forall d, In d (first :: rest) ->
                 sources d <> []
                 /\ all_equal_first (slice_lengths_of d) = true.

(** [d[k]] on a dictionary: the value of the entry of key [k], if there is
    one. *)
Definition dict_get {K V : Type} (eqb : K -> K -> bool) (d : list (K * V)) (k : K)
  : option V :=
  option_map snd (find (fun kv => eqb k (fst kv)) d).

(** The keys of a dictionary after [d[k] = ...]. *)
Definition keys_add {K : Type} (eqb : K -> K -> bool) (keys : list K) (k : K)
  : list K :=
  if existsb (eqb k) keys then keys else keys ++ [k].

(** [self'] is [self] with save tasks of the given output names appended, in
    that order. *)
Definition adds (names : list string) (self self' : MergePlanner) : Prop :=
  exists added,
    forallb is_save added = true
    /\ save_names added = names
    /\ self' = set_tasks (_tasks self ++ added) self.

(** The output names [plan_layer] gives to the weights of one layer. *)
Definition layer_names (self : MergePlanner) : list string :=
  map (fun name_format => format_idx name_format (_current_layers self))
      (layer_weight_formats (arch_info self)).

(** The number of layers of a slice: the length of its first source. *)
Definition slice_layers (d : OutputSliceDefinition) : nat :=
  match sources d with
  | first :: _ => Z.to_nat (layers_of first)
  | [] => O
  end.

(** The output names of a whole plan, in the order of the save tasks. *)
Definition plan_names (self : MergePlanner) (l : list OutputSliceDefinition)
  : list string :=
  pre_weights (arch_info self)
  ++ flat_map (fun d => concat (repeat (layer_names self) (slice_layers d))) l
  ++ post_weights (arch_info self).

(** A planner for the models-only configuration of [test_gpt2_copy]. *)
Definition models_only_planner : MergePlanner :=
  MergePlanner_init gpt2_copy_config gpt2_info "out" default_MergeOptions.

(** A planner for a configuration whose slice list is empty. *)
Definition empty_slices_planner : MergePlanner :=
  MergePlanner_init empty_config gpt2_info "out" default_MergeOptions.

(** A slice without sources, and a slice whose source spans no layer. *)
Definition no_source_slice : OutputSliceDefinition := mkOutputSliceDefinition [].

Definition zero_layer_slice : OutputSliceDefinition :=
  mkOutputSliceDefinition [mkInputSliceDefinition gpt2 (3, 3)].

(** The reader of a whole-model weight, as [plan] builds it. *)
Definition sample_weight_reader (weight : string) : SampleReader :=
  mkSampleReader (gpt2_slice_config "passthrough" 2) 0%Q (Some weight) None None.

(** The layers of the first source of a slice, as a Python integer. *)
Definition first_layers (d : OutputSliceDefinition) : Z :=
  match sources d with
  | first :: _ => layers_of first
  | [] => 0
  end.

(** The events that write a part of the output. *)
Definition is_saved (e : Event) : bool :=
  match e with
  | ConfigSaved _ _ | TokenizerSaved _ _ => true
  | _ => false
  end.

(** The devices [run_merge] gives to the executor. *)
Definition math_device_of (o : MergeOptions) : string :=
  if cuda o then "cuda" else "cpu".

Definition storage_device_of (o : MergeOptions) : string :=
  if low_cpu_memory o then "cuda" else "cpu".

(** The model whose configuration and tokenizer the output inherits: the base
    model when the configuration names one, the first referenced model
    otherwise. *)
Definition donor_of `{Collaborators} (c : MergeConfiguration)
  : result ModelReference :=
  if truthy_opt_str (base_model c)
  then match base_model c with
       | Some text => Ok (ModelReference_parse text)
       | None => py_first (referenced_models c)
       end
  else py_first (referenced_models c).

Definition donor_error : string := "Failed to copy tokenizer".

(** A collaborator set whose executor fails. *)
Definition failing_executor : Collaborators :=
  {| ConfigReader := SampleReader;
     new_ConfigReader := new_ConfigReader (Collaborators := sample);
     for_in_slices := for_in_slices (Collaborators := sample);
     for_tensor := for_tensor (Collaborators := sample);
     with_t := with_t (Collaborators := sample);
     parameter := sample_parameter;
     referenced_models := sample_referenced_models;
     ModelReference_parse := fun text => mkModelReference text None;
     set_seed := sample_set_seed;
     model_config := sample_model_config;
     get_architecture_info := fun cfg => Returned (sample_architecture (config_of cfg));
     method_parameters := sample_method_parameters;
     method_tensor_parameters := sample_method_tensor_parameters;
     executor_run := fun _ _ _ => Raise (RuntimeError "out of memory");
     from_pretrained := fun p => Raise (RuntimeError "no tokenizer files") |}.

(** The sample collaborators with a resolver that falls back on the default
    of every parameter. *)
Definition lenient : Collaborators :=
  {| ConfigReader := SampleReader;
     new_ConfigReader := new_ConfigReader (Collaborators := sample);
     for_in_slices := for_in_slices (Collaborators := sample);
     for_tensor := for_tensor (Collaborators := sample);
     with_t := with_t (Collaborators := sample);
     parameter := fun _ _ _ _ default => Some default;
     referenced_models := sample_referenced_models;
     ModelReference_parse := fun text => mkModelReference text None;
     set_seed := sample_set_seed;
     model_config := sample_model_config;
     get_architecture_info := fun cfg => Returned (sample_architecture (config_of cfg));
     method_parameters := sample_method_parameters;
     method_tensor_parameters := sample_method_tensor_parameters;
     executor_run := executor_run (Collaborators := sample);
     from_pretrained := from_pretrained (Collaborators := sample) |}.

(** The planner of one model with a slice of two layers. *)
Definition stack_planner : MergePlanner := gpt2_planner "passthrough" 2.


(** The output configuration of [gpt2_copy_config] before the run sets its
    vocabulary size and layer count. *)
Definition gpt2_out_config : PretrainedConfig :=
  mkPretrainedConfig gpt2 (Some "bfloat16") None None.

(** What [plan_layer] plans for one layer template: a save task named by the
    template at the layer counter of the planner, gathering from every source
    the template at the first layer of the source plus the offset. *)
Definition layer_task (self : MergePlanner) (sources : list InputSliceDefinition)
    (layer_offset : Z) (name_format : string) (t : Task) : Prop :=
  exists save,
    t = SaveTensorTask save
    /\ tensor_name save = format_idx name_format (_current_layers self)
    /\ tensor_names (tensors (tensor_task save))
       = dict_of ModelReference_eqb
           (combine (map model sources)
              (map (fun s => format_idx name_format
                               (fst (layer_range s) + layer_offset))
                   sources))
    /\ writer_task save = _writer_task self.

(** The default options with a seed the seeding refuses. *)
Definition refused_seed_options : MergeOptions :=
  {| allow_crimes := false;
     transformers_cache := None;
     lora_merge_cache := None;
     cuda := false;
     low_cpu_memory := false;
     out_shard_size := 5000000000;
     copy_tokenizer := true;
     clone_tensors := false;
     trust_remote_code := false;
     random_seed := Some (-1);
     lazy_unpickle := false |}.

(** The configuration of [test_gpt2_stack]: one slice, the same model
    twice. *)
Definition gpt2_stack_config : MergeConfiguration :=
  {| merge_method := "passthrough";
     base_model := None;
     models := None;
     slices := Some [mkOutputSliceDefinition
                       [mkInputSliceDefinition gpt2 (0, 12);
                        mkInputSliceDefinition gpt2 (0, 12)]];
     cfg_parameters := [];
     dtype := Some "bfloat16" |}.

(** The planner of [test_gpt2_stack]. *)
Definition gpt2_stack_planner : MergePlanner :=
  MergePlanner_init gpt2_stack_config gpt2_info "out" default_MergeOptions.

(* ===================================================================== *)
(** ** Properties of the driver *)
(* ===================================================================== *)

Lemma list_str_eqb_eq (a b : list string) : list_str_eqb a b = true <-> a = b.
Proof.
  unfold list_str_eqb.
  destruct (list_eq_dec string_dec a b) as [e | n]; split; intro E;
    congruence.
Qed.

Lemma ArchitectureInfo_eqb_eq (a b : ArchitectureInfo) :
  ArchitectureInfo_eqb a b = true <-> a = b.
Proof.
  unfold ArchitectureInfo_eqb. split.
  - intro E.
    repeat (apply andb_prop in E; destruct E as [E ?]).
    destruct a, b; simpl in *.
    repeat match goal with
           | X : list_str_eqb _ _ = true |- _ => apply list_str_eqb_eq in X
           | X : String.eqb _ _ = true |- _ => apply String.eqb_eq in X
           end.
    subst. reflexivity.
  - intros ->.
    repeat (apply andb_true_intro; split);
      try (apply list_str_eqb_eq; reflexivity).
    apply String.eqb_refl.
Qed.

Lemma all_same_architecture_false (infos : list ArchitectureInfo) :
  all_same_architecture infos = false <->
  exists a b, In a infos /\ In b infos /\ a <> b.
Proof.
  destruct infos as [| first rest]; simpl.
  - split; [discriminate | intros (a & _ & [] & _)].
  - split.
    + intro E.
      assert (X : existsb (fun a => negb (ArchitectureInfo_eqb a first)) rest = true).
      { clear -E. induction rest as [| x r IH]; simpl in *; [discriminate |].
        destruct (ArchitectureInfo_eqb x first); simpl in *; auto. }
      apply existsb_exists in X. destruct X as (a & Ia & Na).
      exists a, first. repeat split; auto.
      intro Eq. apply ArchitectureInfo_eqb_eq in Eq. rewrite Eq in Na. discriminate.
    + intros (a & b & Ia & Ib & Nab).
      destruct (forallb (fun a0 => ArchitectureInfo_eqb a0 first) rest) eqn:F; auto.
      exfalso. rewrite forallb_forall in F.
      assert (G : forall x, first = x \/ In x rest -> x = first).
      { intros x [-> | Ix]; auto. apply ArchitectureInfo_eqb_eq. auto. }
      apply Nab. rewrite (G a Ia), (G b Ib). reflexivity.
Qed.

(** The constructor call written in [run_merge] is refused: the keyword
    [max_shard_size] is not a parameter of [MergePlanner.__init__]. *)
Lemma MergePlanner_call_in_run_merge (c : MergeConfiguration)
    (a : ArchitectureInfo) (out : string) (o : MergeOptions) :
  MergePlanner_call [ObjConfig c; ObjArch a]
    [("out_path", ObjStr out);
     ("max_shard_size", ObjInt (out_shard_size o));
     ("clone_tensors", ObjBool (clone_tensors o))]
  = Raise (TypeError unexpected_keyword_message).
Proof. reflexivity. Qed.

Lemma collect_length (A B : Type) (f : A -> result B) (l : list A)
    (ys : list B) :
  collect f l = Ok ys -> length ys = length l.
Proof.
  revert ys. induction l as [| x rest IH]; intros ys; simpl.
  - intro E. inversion E. reflexivity.
  - destruct (f x); [| discriminate].
    destruct (collect f rest); [| discriminate].
    intro E. inversion E. simpl. f_equal. apply IH. reflexivity.
Qed.

Lemma seeded_raises (A : Type) (o : outcome A) (e : exn) :
  seeded o = Raise e -> exists msg, e = ValueError msg.
Proof. destruct o; simpl; intro E; inversion E; eauto. Qed.

Lemma loaded_raises (A : Type) (o : outcome A) (e : exn) :
  loaded o = Raise e -> exists msg, e = LoadError msg.
Proof. destruct o; simpl; intro E; inversion E; eauto. Qed.

Section DriverFacts.
Context `{Collaborators}.

Lemma seeding_raises (o : MergeOptions) (e : exn) :
  seeding o = Raise e -> exists msg, e = ValueError msg.
Proof.
  unfold seeding. destruct (random_seed o); [apply seeded_raises | discriminate].
Qed.

Lemma architecture_infos_raises (c : MergeConfiguration) (e : exn) :
  architecture_infos c = Raise e -> exists msg, e = LoadError msg.
Proof.
  unfold architecture_infos.
  induction (referenced_models c) as [| m rest IH]; simpl; [discriminate |].
  destruct (loaded (model_config m)) as [cfg | e1] eqn:L.
  - destruct (loaded (get_architecture_info cfg)) as [a | e2] eqn:G.
    + destruct (collect _ rest); [discriminate |].
      intro E. inversion E. subst. apply IH. reflexivity.
    + intro E. inversion E. subst. eapply loaded_raises. exact G.
  - intro E. inversion E. subst. eapply loaded_raises. exact L.
Qed.

Lemma architecture_infos_length (c : MergeConfiguration)
    (infos : list ArchitectureInfo) :
  architecture_infos c = Ok infos ->
  length infos = length (referenced_models c).
Proof. apply collect_length. Qed.

(** The ways a run ends, in the order of the steps of [run_merge]. *)
Lemma run_merge_outcome (c : MergeConfiguration) (out : string)
    (o : MergeOptions) (trace : list Event) :
  run_merge c out o trace =
  let seeded := trace ++ seed_events o in
  match seeding o with
  | Raise e => (Raise e, seeded)
  | Ok _ =>
      if negb (output_requested c)
      then (Raise (RuntimeError no_output_message), seeded)
      else
        match architecture_infos c with
        | Raise e => (Raise e, seeded)
        | Ok infos =>
            if negb (allow_crimes o) && negb (all_same_architecture infos)
            then (Raise (RuntimeError mixing_message), seeded)
            else match infos with
                 | [] => (Raise (IndexError "list index out of range"), seeded)
                 | _ :: _ =>
                     (Raise (TypeError unexpected_keyword_message),
                      seeded ++ [LoaderCacheOptions (lazy_unpickle o)
                                   (lora_merge_cache o) (transformers_cache o)])
                 end
        end
  end.
Proof.
  unfold run_merge, output_requested, seed_events, seeding.
  rewrite negb_orb. cbv zeta.
  unfold bind at 1.
  assert (S0 : (match random_seed o with
                | Some seed =>
                    emit (SetSeed seed) ;; lift_result (seeded (set_seed seed))
                | None => ret tt
                end) trace
               = (match random_seed o with
                  | Some seed => seeded (set_seed seed)
                  | None => Ok tt
                  end,
                  trace ++ match random_seed o with
                           | Some seed => [SetSeed seed]
                           | None => []
                           end)).
  { unfold bind, emit, modify, ret, lift_result.
    destruct (random_seed o); [reflexivity | now rewrite app_nil_r]. }
  rewrite S0. clear S0.
  set (after := trace ++ _).
  destruct (match random_seed o with
            | Some seed => seeded (set_seed seed)
            | None => Ok tt
            end) as [[] | e]; [| reflexivity].
  destruct (negb (truthy_opt_list (models c)) && negb (truthy_opt_list (slices c)));
    [reflexivity |].
  unfold bind at 1, lift_result at 1.
  destruct (architecture_infos c) as [infos | e]; [| reflexivity].
  unfold bind at 1.
  destruct (allow_crimes o); simpl negb; cbv iota.
  - simpl andb. cbv iota. unfold ret at 1.
    destruct infos as [| a rest]; [reflexivity |].
    unfold bind, lift_result, py_first, emit, modify.
    rewrite MergePlanner_call_in_run_merge. reflexivity.
  - rewrite andb_true_l.
    destruct (negb (all_same_architecture infos)); [reflexivity |].
    unfold ret at 1.
    destruct infos as [| a rest]; [reflexivity |].
    unfold bind, lift_result, py_first, emit, modify.
    rewrite MergePlanner_call_in_run_merge. reflexivity.
Qed.
End DriverFacts.

Lemma seed_events_no_work (o : MergeOptions) :
  forallb (fun ev => negb (is_work ev)) (seed_events o) = true.
Proof. unfold seed_events. destruct (random_seed o); reflexivity. Qed.

(** A call of [MergePlanner] that passes any keyword the constructor does not
    declare raises a [TypeError], whatever the other arguments are. *)
Lemma undeclared_keyword_refused (args : list PyObj)
    (kwargs : list (string * PyObj)) (k : string) :
  In k (map fst kwargs) ->
  str_in k MergePlanner_init_params = false ->
  exists msg, MergePlanner_call args kwargs = Raise (TypeError msg).
Proof.
  intros I N. unfold MergePlanner_call, bind_arguments.
  generalize (combine MergePlanner_init_params args) as bound.
  induction kwargs as [| [k' v] rest IH]; intro bound;
    cbn [bind_keywords map fst In] in *; [tauto |].
  destruct (negb (str_in k' MergePlanner_init_params)) eqn:U; [eauto |].
  destruct (is_some (bound_lookup k' bound)); [eauto |].
  destruct I as [-> | I].
  - rewrite N in U. discriminate.
  - apply IH. exact I.
Qed.

Section DriverClaims.
Context `{Collaborators}.

(** No run of [run_merge] returns normally. *)
Lemma run_merge_never_completes (c : MergeConfiguration) (out : string)
    (o : MergeOptions) (trace : list Event) :
  exists e, fst (run_merge c out o trace) = Raise e.
Proof.
  rewrite run_merge_outcome. cbv zeta.
  destruct (seeding o) as [[] | e0]; [| simpl; eauto].
  destruct (negb (output_requested c)); [simpl; eauto |].
  destruct (architecture_infos c) as [infos | e1]; [| simpl; eauto].
  destruct (negb (allow_crimes o) && negb (all_same_architecture infos));
    destruct infos; simpl; eauto.
Qed.

(** C2: for every configuration that passes the output check and the
    architecture check (the seeding, if any, has returned, an output is
    requested, the architecture infos of the referenced models have been
    obtained and are all the same or may be mixed), [run_merge] raises an
    exception and emits no event of warm-up, execution or output.  When the
    configuration references a model the exception is the [TypeError] of the
    call of [MergePlanner], raised right after the loader cache is set up: the
    keywords [max_shard_size] and [clone_tensors] are not parameters of
    [__init__], while its parameter [options] is among them. *)
Theorem run_merge_fails_at_planner_construction (c : MergeConfiguration)
    (out : string) (o : MergeOptions) (trace : list Event)
    (infos : list ArchitectureInfo) :
  seeding o = Ok tt ->
  output_requested c = true ->
  architecture_infos c = Ok infos ->
  allow_crimes o = true \/ all_same_architecture infos = true ->
  exists e events,
    run_merge c out o trace = (Raise e, trace ++ events)
    /\ forallb (fun ev => negb (is_work ev)) events = true
    /\ (referenced_models c <> [] ->
        e = TypeError unexpected_keyword_message
        /\ events = seed_events o
                    ++ [LoaderCacheOptions (lazy_unpickle o) (lora_merge_cache o)
                          (transformers_cache o)])
    /\ str_in "max_shard_size" MergePlanner_init_params = false
    /\ str_in "clone_tensors" MergePlanner_init_params = false
    /\ str_in "options" MergePlanner_init_params = true.
Proof.
  intros S R A P. rewrite run_merge_outcome. cbv zeta.
  rewrite S, R, A. simpl negb. cbv iota.
  assert (G : negb (allow_crimes o) && negb (all_same_architecture infos) = false).
  { destruct P as [-> | ->]; [reflexivity | apply andb_false_r]. }
  rewrite G. apply architecture_infos_length in A.
  destruct infos as [| a rest].
  - exists (IndexError "list index out of range"), (seed_events o).
    split; [reflexivity |].
    split; [apply seed_events_no_work |].
    split; [| repeat split; reflexivity].
    intro X. exfalso. apply X.
    destruct (referenced_models c); [reflexivity | discriminate].
  - eexists _, _. rewrite <- app_assoc. split; [reflexivity |].
    split; [rewrite forallb_app, seed_events_no_work; reflexivity |].
    split; [intros _; split; reflexivity |].
    repeat split; reflexivity.
Qed.

(** C6, as amended: [run_merge] raises the error "No output requested"
    exactly when the seeding, if any, has returned and the configuration has
    neither a non-empty model list nor a non-empty slice list; the run then
    stops right after the seeding, so that nothing is planned, executed or
    written. *)
Theorem run_merge_no_output_requested (c : MergeConfiguration) (out : string)
    (o : MergeOptions) (trace : list Event) :
  (fst (run_merge c out o trace) = Raise (RuntimeError no_output_message)
   <-> seeding o = Ok tt
       /\ truthy_opt_list (models c) = false
       /\ truthy_opt_list (slices c) = false)
  /\ (seeding o = Ok tt ->
      truthy_opt_list (models c) = false ->
      truthy_opt_list (slices c) = false ->
      snd (run_merge c out o trace) = trace ++ seed_events o
      /\ forallb (fun ev => negb (is_work ev)) (seed_events o) = true).
Proof.
  rewrite run_merge_outcome. cbv zeta. unfold output_requested.
  destruct (seeding o) as [[] | e0] eqn:S.
  2: { split; [| discriminate]. simpl. split.
       - intro X. inversion X. subst e0.
         apply seeding_raises in S. destruct S as (msg & S). discriminate.
       - intros (X & _). discriminate. }
  destruct (truthy_opt_list (models c)), (truthy_opt_list (slices c));
    simpl orb; simpl negb; cbv iota.
  4: { split; [simpl; tauto |]. intros _ _ _.
       split; [reflexivity | apply seed_events_no_work]. }
  all: split; [| discriminate].
  all: split; [| intros (_ & X & Y); discriminate].
  all: destruct (architecture_infos c) as [infos | e1] eqn:A;
    [ destruct (negb (allow_crimes o) && negb (all_same_architecture infos));
      destruct infos; simpl; intro X; inversion X
    | simpl; intro X; inversion X; subst e1;
      apply architecture_infos_raises in A; destruct A as (msg & A);
      discriminate ].
Qed.

(** C7: when permissive mixing is off and the architecture infos obtained
    for the referenced models are not all equal, [run_merge] raises right
    after the seeding, before the loader cache is set up and the planner
    built: a [RuntimeError] once the seeding has returned, which is the mixing
    error as soon as an output is requested.  When permissive mixing is on the
    mixing error is never raised, whatever the architecture infos are, and a
    run that has seeded, requests an output and has obtained the architecture
    info of at least one model goes on to set up the loader cache. *)
Theorem run_merge_architecture_check (c : MergeConfiguration) (out : string)
    (o : MergeOptions) (trace : list Event) :
  (forall infos,
      architecture_infos c = Ok infos ->
      allow_crimes o = false ->
      (exists a b, In a infos /\ In b infos /\ a <> b) ->
      exists e,
        run_merge c out o trace = (Raise e, trace ++ seed_events o)
        /\ (seeding o = Ok tt ->
            exists msg, e = RuntimeError msg
                        /\ (output_requested c = true -> msg = mixing_message)))
  /\ (allow_crimes o = true ->
      fst (run_merge c out o trace) <> Raise (RuntimeError mixing_message)
      /\ (forall infos,
            seeding o = Ok tt ->
            output_requested c = true ->
            architecture_infos c = Ok infos ->
            infos <> [] ->
            snd (run_merge c out o trace)
            = trace ++ seed_events o
              ++ [LoaderCacheOptions (lazy_unpickle o) (lora_merge_cache o)
                    (transformers_cache o)])).
Proof.
  rewrite run_merge_outcome. cbv zeta. split.
  - intros infos A Al D. apply all_same_architecture_false in D.
    rewrite A, Al, D. simpl andb. cbv iota.
    destruct (seeding o) as [[] | e0].
    + destruct (output_requested c); simpl negb; cbv iota.
      * exists (RuntimeError mixing_message). split; [reflexivity |].
        intros _. exists mixing_message. auto.
      * exists (RuntimeError no_output_message). split; [reflexivity |].
        intros _. exists no_output_message. split; [reflexivity | discriminate].
    + exists e0. split; [reflexivity | discriminate].
  - intros Al. rewrite Al. split.
    + destruct (seeding o) as [[] | e0] eqn:S.
      * destruct (output_requested c); simpl negb; cbv iota;
          [| simpl; intro X; inversion X].
        destruct (architecture_infos c) as [infos | e1] eqn:A.
        -- simpl andb. cbv iota. destruct infos; simpl; discriminate.
        -- simpl. intro X. inversion X. subst e1.
           apply architecture_infos_raises in A. destruct A as (msg & A).
           discriminate.
      * simpl. intro X. inversion X. subst e0.
        apply seeding_raises in S. destruct S as (msg & S). discriminate.
    + intros infos S R A N. rewrite S, R, A. simpl.
      destruct infos; [contradiction N; reflexivity |].
      simpl. now rewrite app_assoc.
Qed.
End DriverClaims.

(** C1 (the code fails it): on the single-model passthrough configuration of
    [test_gpt2_copy], with the default options, [run_merge] does not complete:
    it raises the [TypeError] of the call of [MergePlanner] after setting up
    the loader cache, and writes no weight. *)
Theorem passthrough_copy_raises :
  run_merge (H := sample) gpt2_copy_config "out" default_MergeOptions []
  = (Raise (TypeError unexpected_keyword_message),
     [LoaderCacheOptions false None None]).
Proof. vm_compute. reflexivity. Qed.

Lemma run_merge_fails_at_planner_construction_witness :
  exists e events,
    run_merge (H := sample) gpt2_copy_config "out" default_MergeOptions []
    = (Raise e, [] ++ events)
    /\ forallb (fun ev => negb (is_work ev)) events = true
    /\ (referenced_models (Collaborators := sample) gpt2_copy_config <> [] ->
        e = TypeError unexpected_keyword_message
        /\ events = seed_events default_MergeOptions
                    ++ [LoaderCacheOptions false None None])
    /\ str_in "max_shard_size" MergePlanner_init_params = false
    /\ str_in "clone_tensors" MergePlanner_init_params = false
    /\ str_in "options" MergePlanner_init_params = true.
Proof.
  apply (run_merge_fails_at_planner_construction (H := sample)
           gpt2_copy_config "out" default_MergeOptions [] (infos := [gpt2_info])).
  - reflexivity.
  - reflexivity.
  - reflexivity.
  - right. reflexivity.
Defined.

(** C6, as first stated, fails: with a seed that the seeding refuses, a
    configuration that supplies neither models nor slices ends in the
    [ValueError] of the seeding, not in the error "No output requested". *)
Lemma run_merge_no_output_counterexample :
  ~ (fst (run_merge (H := sample) empty_config "out" refused_seed_options [])
     = Raise (RuntimeError no_output_message)
     <-> truthy_opt_list (models empty_config) = false
         /\ truthy_opt_list (slices empty_config) = false).
Proof.
  intros [_ X].
  assert (E : fst (run_merge (H := sample) empty_config "out"
                     refused_seed_options [])
              = Raise (ValueError "Seed must be between 0 and 2**32 - 1"))
    by (vm_compute; reflexivity).
  rewrite E in X. specialize (X (conj eq_refl eq_refl)). discriminate.
Qed.

Lemma run_merge_no_output_requested_witness :
  snd (run_merge (H := sample) empty_config "out" default_MergeOptions [])
  = [] ++ seed_events default_MergeOptions
  /\ forallb (fun ev => negb (is_work ev)) (seed_events default_MergeOptions) = true.
Proof.
  apply (proj2 (run_merge_no_output_requested (H := sample)
                  empty_config "out" default_MergeOptions []));
    reflexivity.
Defined.

Lemma run_merge_architecture_check_witness :
  exists e,
    run_merge (H := sample) mixed_config "out" default_MergeOptions []
    = (Raise e, [] ++ seed_events default_MergeOptions)
    /\ (seeding (H := sample) default_MergeOptions = Ok tt ->
        exists msg, e = RuntimeError msg
                    /\ (output_requested mixed_config = true ->
                        msg = mixing_message)).
Proof.
  apply (proj1 (run_merge_architecture_check (H := sample)
                  mixed_config "out" default_MergeOptions [])
           [gpt2_info; llama_info]).
  - reflexivity.
  - reflexivity.
  - exists gpt2_info, llama_info. simpl. split; [| split].
    + left. reflexivity.
    + right. left. reflexivity.
    + discriminate.
Defined.

(* ===================================================================== *)
(** ** Properties of the monad *)
(* ===================================================================== *)

Section MonadFacts.
Variables S A B : Type.

Lemma bind_ok (m : M S A) (k : A -> M S B) (s s' : S) (a : A) :
  m s = (Ok a, s') -> bind m k s = k a s'.
Proof. unfold bind. intros ->. reflexivity. Qed.

Lemma bind_raise (m : M S A) (k : A -> M S B) (s s' : S) (e : exn) :
  m s = (Raise e, s') -> bind m k s = (Raise e, s').
Proof. unfold bind. intros ->. reflexivity. Qed.

(** Two loop bodies that agree on the elements of the list give the same
    loop. *)
Lemma for_each_ext (l : list A) (f g : A -> M S unit) :
  (forall x, In x l -> forall s, f x s = g x s) ->
  forall s, for_each l f s = for_each l g s.
Proof.
  induction l as [| x rest IH]; intros E s; simpl; [reflexivity |].
  unfold bind. rewrite (E x (or_introl eq_refl)).
  destruct (g x s) as [[[] | e] s']; [| reflexivity].
  apply IH. intros y Iy. apply E. right. exact Iy.
Qed.

(** A loop returns when each turn returns and keeps the invariant under
    which it does. *)
Lemma for_each_returns (Inv : S -> Prop) (l : list A) (body : A -> M S unit) :
  (forall x s, In x l -> Inv s ->
               fst (body x s) = Ok tt /\ Inv (snd (body x s))) ->
  forall s, Inv s ->
            fst (for_each l body s) = Ok tt /\ Inv (snd (for_each l body s)).
Proof.
  induction l as [| x rest IH]; intros Hb s I; simpl; [auto |].
  unfold bind. destruct (Hb x s (or_introl eq_refl) I) as [E I'].
  destruct (body x s) as [[[] | e] s']; simpl in *; try discriminate.
  apply IH; auto.
Qed.

Variable R : S -> S -> Prop.
Hypothesis R_refl : forall s, R s s.
Hypothesis R_trans : forall s1 s2 s3, R s1 s2 -> R s2 s3 -> R s1 s3.

Lemma bind_related (m : M S A) (k : A -> M S B) :
  (forall s, R s (snd (m s))) ->
  (forall a s, R s (snd (k a s))) ->
  forall s, R s (snd (bind m k s)).
Proof.
  intros Hm Hk s. unfold bind. specialize (Hm s).
  destruct (m s) as [[a | e] s']; simpl in *; [| exact Hm].
  eapply R_trans; [exact Hm | apply Hk].
Qed.

(** A loop relates its first and last stores when each turn does, also
    when it is left by an exception. *)
Lemma for_each_related (l : list A) (body : A -> M S unit) :
  (forall x s, In x l -> R s (snd (body x s))) ->
  forall s, R s (snd (for_each l body s)).
Proof.
  induction l as [| x rest IH]; intros Hb s; simpl; [apply R_refl |].
  unfold bind. pose proof (Hb x s (or_introl eq_refl)) as Hx.
  destruct (body x s) as [[[] | e] s']; simpl in *; [| exact Hx].
  eapply R_trans; [exact Hx |].
  apply IH. intros y s0 Iy. apply Hb. right. exact Iy.
Qed.

Variable P : exn -> Prop.

(** A loop raises only what its body raises. *)
Lemma for_each_raises (l : list A) (body : A -> M S unit) :
  (forall x s e, In x l -> fst (body x s) = Raise e -> P e) ->
  forall s e, fst (for_each l body s) = Raise e -> P e.
Proof.
  induction l as [| x rest IH]; intros Hb s e; simpl; [discriminate |].
  unfold bind. pose proof (Hb x s) as Hx.
  destruct (body x s) as [[[] | e'] s']; simpl in *.
  - apply IH. intros y s0 e0 Iy. apply Hb. right. exact Iy.
  - intro E. inversion E. subst. apply Hx; auto.
Qed.
End MonadFacts.

(* ===================================================================== *)
(** ** Properties of the planner *)
(* ===================================================================== *)

Lemma set_tasks_same (self : MergePlanner) : set_tasks (_tasks self) self = self.
Proof. destruct self. reflexivity. Qed.

Lemma grows_refl (self : MergePlanner) : grows self self.
Proof.
  exists []. split; [reflexivity |].
  rewrite app_nil_r. symmetry. apply set_tasks_same.
Qed.

Lemma grows_trans (s1 s2 s3 : MergePlanner) :
  grows s1 s2 -> grows s2 s3 -> grows s1 s3.
Proof.
  intros (a1 & F1 & ->) (a2 & F2 & ->).
  exists (a1 ++ a2). split.
  - rewrite forallb_app, F1, F2. reflexivity.
  - unfold set_tasks. simpl. rewrite app_assoc. reflexivity.
Qed.

Lemma grows_append_save (self : MergePlanner) (save : SaveTensor) :
  grows self (append_task (SaveTensorTask save) self).
Proof. exists [SaveTensorTask save]. split; reflexivity. Qed.

(** What [grows] keeps. *)
Lemma grows_keeps (self self' : MergePlanner) :
  grows self self' ->
  config self' = config self
  /\ arch_info self' = arch_info self
  /\ _writer_task self' = _writer_task self
  /\ _method self' = _method self
  /\ _current_layers self' = _current_layers self
  /\ _tokenizer_task self' = _tokenizer_task self
  /\ planner_clone_tensors self' = planner_clone_tensors self.
Proof. intros (a & _ & ->). repeat split. Qed.

Section PlannerFacts.
Context `{Collaborators}.

Lemma resolve_parameters_raises cfg tensor model ps d e :
  resolve_parameters cfg tensor model ps d = Raise e ->
  is_configuration_error e.
Proof.
  revert d. induction ps as [| p rest IH]; intro d; simpl; [discriminate |].
  destruct (parameter cfg (name p) model (required p) (default_value p)).
  - apply IH.
  - intro E. inversion E. red. eauto.
Qed.

Lemma resolve_tensor_parameters_raises cfg ps items d e :
  resolve_tensor_parameters cfg ps items d = Raise e ->
  is_configuration_error e.
Proof.
  revert d. induction items as [| [m n] rest IH]; intro d; simpl; [discriminate |].
  destruct (resolve_parameters (for_tensor cfg n) n (Some m) ps []) eqn:E.
  - apply IH.
  - intro X. inversion X. subst. eapply resolve_parameters_raises. exact E.
Qed.

(** [plan_tensor] either appends one save task for the weight, built on
    the merge method of the weight, or raises the configuration error of
    the resolver and leaves the planner as it was. *)
Lemma plan_tensor_outcome name names_in models cfg_reader self :
  (exists save,
      plan_tensor name names_in models cfg_reader self
      = (Ok tt, append_task (SaveTensorTask save) self)
      /\ tensor_name save = name
      /\ output_tensor_name (tensor_task save) = name
      /\ task_method (tensor_task save) = tensor_merge_method_of self name
      /\ writer_task save = _writer_task self)
  \/ (exists e,
         plan_tensor name names_in models cfg_reader self = (Raise e, self)
         /\ is_configuration_error e).
Proof.
  unfold plan_tensor, bind, get, lift_result, modify.
  destruct (resolve_parameters _ name None _ []) as [gp | e] eqn:G.
  - destruct (resolve_tensor_parameters cfg_reader _ _ []) as [tp | e] eqn:T.
    + left. eexists. split; [reflexivity |]. repeat split.
    + right. exists e. split; [reflexivity |].
      eapply resolve_tensor_parameters_raises. exact T.
  - right. exists e. split; [reflexivity |].
    eapply resolve_parameters_raises. exact G.
Qed.

Lemma plan_tensor_grows name names_in models cfg_reader self :
  grows self (snd (plan_tensor name names_in models cfg_reader self)).
Proof.
  destruct (plan_tensor_outcome name names_in models cfg_reader self)
    as [(save & -> & _) | (e & -> & _)]; simpl.
  - apply grows_append_save.
  - apply grows_refl.
Qed.

Lemma plan_tensor_raises name names_in models cfg_reader self e :
  fst (plan_tensor name names_in models cfg_reader self) = Raise e ->
  is_configuration_error e.
Proof.
  destruct (plan_tensor_outcome name names_in models cfg_reader self)
    as [(save & -> & _) | (e' & -> & C)]; simpl; [discriminate |].
  intro X. inversion X. subst. exact C.
Qed.

Lemma plan_layer_grows sources layer_offset t cfg_reader self :
  grows self (snd (plan_layer sources layer_offset t cfg_reader self)).
Proof.
  unfold plan_layer. unfold bind at 1, get at 1.
  apply for_each_related; [exact grows_refl | exact grows_trans |].
  intros fmt s _. unfold bind, get. apply plan_tensor_grows.
Qed.

Lemma plan_layer_raises sources layer_offset t cfg_reader self e :
  fst (plan_layer sources layer_offset t cfg_reader self) = Raise e ->
  is_configuration_error e.
Proof.
  unfold plan_layer. unfold bind at 1, get at 1.
  apply for_each_raises.
  intros fmt s e0 _. unfold bind, get. apply plan_tensor_raises.
Qed.
End PlannerFacts.

Lemma all_equal_first_false (l : list Z) :
  all_equal_first l = false <->
  exists first x, py_first l = Ok first /\ In x l /\ x <> first.
Proof.
  destruct l as [| first rest].
  - simpl. split; [discriminate | intros (f & x & E & _); discriminate].
  - unfold all_equal_first, py_first. split.
    + intro E.
      assert (X : existsb (fun s => negb (s =? first)) (first :: rest) = true).
      { clear -E. induction (first :: rest) as [| y r IH]; simpl in *; [discriminate |].
        destruct (y =? first); simpl in *; auto. }
      apply existsb_exists in X. destruct X as (x & Ix & Nx).
      exists first, x. repeat split; auto.
      intros ->. rewrite Z.eqb_refl in Nx. discriminate.
    + intros (f & x & E & Ix & Nx). inversion E. subst f.
      destruct (forallb (fun s => s =? first) (first :: rest)) eqn:F; auto.
      rewrite forallb_forall in F. apply F in Ix. apply Z.eqb_eq in Ix. contradiction.
Qed.

Lemma py_range_spec (n idx : Z) : In idx (py_range n) <-> 0 <= idx < n.
Proof.
  unfold py_range. rewrite in_map_iff. split.
  - intros (k & <- & Ik). apply in_seq in Ik. lia.
  - intros B. exists (Z.to_nat idx). split; [lia |]. apply in_seq. lia.
Qed.

Lemma layer_t_fraction (n idx : Z) :
  0 <= idx < n -> layer_t n idx = Ok (interpolation_fraction n idx).
Proof.
  intro B. unfold layer_t, interpolation_fraction, py_truediv.
  destruct (n >? 1) eqn:G.
  - apply Z.gtb_lt in G.
    replace (n - 1 =? 0) with false by (symmetry; apply Z.eqb_neq; lia).
    replace (n =? 1) with false by (symmetry; apply Z.eqb_neq; lia).
    reflexivity.
  - assert (n = 1) as -> by (rewrite Z.gtb_ltb in G; apply Z.ltb_ge in G; lia).
    reflexivity.
Qed.

Lemma layer_t_raises (n idx : Z) (e : exn) :
  layer_t n idx = Raise e -> exists msg, e = ZeroDivisionError msg.
Proof.
  unfold layer_t, py_truediv.
  destruct (n >? 1); [| discriminate].
  destruct (n - 1 =? 0); [| discriminate].
  intro X. inversion X. eauto.
Qed.

Lemma configuration_error_not_runtime (e : exn) :
  is_configuration_error e -> not_runtime_error e.
Proof. intros (p & t & m & ->) msg. discriminate. Qed.

Section SliceFacts.
Context `{Collaborators}.

(** The two ways of [plan_slice]: the length check fails and nothing is
    planned, or it passes and the layers are planned in turn. *)
Lemma plan_slice_outcome (definition : OutputSliceDefinition)
    (self : MergePlanner) :
  plan_slice definition self =
  if negb (all_equal_first (slice_lengths_of definition))
  then (Raise (RuntimeError slice_length_message), self)
  else match py_first (slice_lengths_of definition) with
       | Raise e => (Raise e, self)
       | Ok num_layers =>
           for_each (py_range num_layers) (fun idx =>
             t <- lift_result (layer_t num_layers idx) ;;
             plan_layer (sources definition) idx t
               (slice_reader definition self)) self
       end.
Proof.
  unfold plan_slice.
  destruct (negb (all_equal_first (slice_lengths_of definition))); [reflexivity |].
  unfold bind at 1, lift_result at 1.
  destruct (py_first (slice_lengths_of definition)); reflexivity.
Qed.

Lemma plan_slice_grows (definition : OutputSliceDefinition) (self : MergePlanner) :
  grows self (snd (plan_slice definition self)).
Proof.
  rewrite plan_slice_outcome.
  destruct (negb (all_equal_first (slice_lengths_of definition)));
    [apply grows_refl |].
  destruct (py_first (slice_lengths_of definition)) as [n | e]; [| apply grows_refl].
  apply for_each_related; [exact grows_refl | exact grows_trans |].
  intros idx s _. unfold bind, lift_result.
  destruct (layer_t n idx); [apply plan_layer_grows | apply grows_refl].
Qed.

Lemma plan_slice_passed_raises (definition : OutputSliceDefinition)
    (self : MergePlanner) (e : exn) :
  all_equal_first (slice_lengths_of definition) = true ->
  fst (plan_slice definition self) = Raise e ->
  not_runtime_error e.
Proof.
  intros A. rewrite plan_slice_outcome, A. simpl negb. cbv iota.
  destruct (py_first (slice_lengths_of definition)) as [n | e'] eqn:F.
  - apply for_each_raises.
    intros idx s e0 _. unfold bind, lift_result.
    destruct (layer_t n idx) as [t | e1] eqn:T.
    + intro X. apply configuration_error_not_runtime.
      eapply plan_layer_raises. exact X.
    + simpl. intro X. inversion X. subst.
      apply layer_t_raises in T. destruct T as (m & ->). intro. discriminate.
  - simpl. intro X. inversion X. subst.
    unfold py_first in F. destruct (slice_lengths_of definition); [| discriminate].
    inversion F. intro. discriminate.
Qed.

(** C4: [plan_slice] raises the error "All inputs to a slice must contain
    the same number of layers" exactly when some source of the slice spans
    a number of layers other than the first source does.  The error leaves
    the planner untouched: no task was planned, hence none can execute.
    The permissive-mixing flag of the options does not reach the planner,
    so that [plan_slice] behaves the same whatever its value. *)
Theorem plan_slice_unequal_lengths (definition : OutputSliceDefinition)
    (self : MergePlanner) :
  (fst (plan_slice definition self) = Raise (RuntimeError slice_length_message)
   <-> exists first s,
         py_first (sources definition) = Ok first
         /\ In s (sources definition)
         /\ layers_of s <> layers_of first)
  /\ (fst (plan_slice definition self) = Raise (RuntimeError slice_length_message) ->
      snd (plan_slice definition self) = self)
  /\ (forall c a out o b,
        plan_slice definition (MergePlanner_init c a out (set_allow_crimes b o))
        = plan_slice definition (MergePlanner_init c a out o)).
Proof.
  assert (D : all_equal_first (slice_lengths_of definition) = false
              <-> exists first s,
                    py_first (sources definition) = Ok first
                    /\ In s (sources definition)
                    /\ layers_of s <> layers_of first).
  { rewrite all_equal_first_false. unfold slice_lengths_of.
    fold layers_of. change (fun s => snd (layer_range s) - fst (layer_range s))
      with layers_of.
    split.
    - intros (f & x & F & Ix & N).
      apply in_map_iff in Ix. destruct Ix as (s & <- & Is).
      destruct (sources definition) as [| s0 rest]; [discriminate |].
      simpl in F. inversion F. subst f.
      exists s0, s. auto.
    - intros (s0 & s & F & Is & N).
      destruct (sources definition) as [| s1 rest]; [discriminate |].
      simpl in F. inversion F. subst s1.
      exists (layers_of s0), (layers_of s). repeat split; auto.
      apply in_map. exact Is. }
  assert (L : fst (plan_slice definition self)
              = Raise (RuntimeError slice_length_message)
              <-> all_equal_first (slice_lengths_of definition) = false).
  { split.
    - intro E.
      destruct (all_equal_first (slice_lengths_of definition)) eqn:A; auto.
      exfalso. eapply plan_slice_passed_raises; eauto.
    - intro A. rewrite plan_slice_outcome, A. reflexivity. }
  split; [| split].
  - rewrite L. exact D.
  - intro E. apply L in E. rewrite plan_slice_outcome, E. reflexivity.
  - reflexivity.
Qed.

(** C5: in a slice that passes the length check with [n] layers, the loop
    of [plan_slice] runs over the indices [0 <= idx < n] and hands to
    [plan_layer], for the index [idx], the fraction [idx / (n - 1)], or 1
    when [n = 1]; computing it never raises (no division by zero), and
    [plan_layer] plans every weight of the layer with the reader of the
    slice set to that fraction. *)
Theorem plan_slice_interpolation (definition : OutputSliceDefinition)
    (self : MergePlanner) (n : Z) :
  all_equal_first (slice_lengths_of definition) = true ->
  py_first (slice_lengths_of definition) = Ok n ->
  (forall idx, In idx (py_range n) <-> 0 <= idx < n)
  /\ (forall idx, 0 <= idx < n ->
      layer_t n idx = Ok (interpolation_fraction n idx))
  /\ plan_slice definition self
     = for_each (py_range n) (fun idx =>
         plan_layer (sources definition) idx (interpolation_fraction n idx)
           (slice_reader definition self)) self
  /\ (forall idx current,
      plan_layer (sources definition) idx (interpolation_fraction n idx)
        (slice_reader definition self) current
      = for_each (layer_weight_formats (arch_info current)) (fun name_format =>
          now <- get ;;
          plan_tensor (format_idx name_format (_current_layers now))
            (map (fun s => format_idx name_format (fst (layer_range s) + idx))
                 (sources definition))
            (map model (sources definition))
            (with_t (slice_reader definition self) (interpolation_fraction n idx)))
          current).
Proof.
  intros A F. split; [intro; apply py_range_spec |].
  split; [intros; apply layer_t_fraction; assumption |].
  split; [| reflexivity].
  rewrite plan_slice_outcome, A, F. simpl negb. cbv iota.
  apply for_each_ext. intros idx I s.
  apply py_range_spec in I.
  unfold bind, lift_result. rewrite (layer_t_fraction I). reflexivity.
Qed.

Lemma resolve_parameters_total cfg tensor model ps d :
  (forall r n m q v, parameter r n m q v <> None) ->
  exists d', resolve_parameters cfg tensor model ps d = Ok d'.
Proof.
  intro T. revert d. induction ps as [| p rest IH]; intro d; simpl; [eauto |].
  destruct (parameter cfg (name p) model (required p) (default_value p)) eqn:E.
  - apply IH.
  - exfalso. eapply T. exact E.
Qed.

Lemma resolve_tensor_parameters_total cfg ps items d :
  (forall r n m q v, parameter r n m q v <> None) ->
  exists d', resolve_tensor_parameters cfg ps items d = Ok d'.
Proof.
  intro T. revert d. induction items as [| [m n] rest IH]; intro d; simpl; [eauto |].
  destruct (resolve_parameters_total (for_tensor cfg n) n (Some m) ps [] T)
    as (inner & ->).
  apply IH.
Qed.

(** When every parameter resolves, [plan_tensor] returns. *)
Lemma plan_tensor_returns name names_in models cfg_reader self :
  (forall r n m q v, parameter r n m q v <> None) ->
  fst (plan_tensor name names_in models cfg_reader self) = Ok tt.
Proof.
  intro T. unfold plan_tensor, bind, get, lift_result, modify.
  match goal with
  | |- context [resolve_parameters ?c ?t ?m ?ps ?d] =>
      destruct (resolve_parameters_total c t m ps d T) as (gp & ->)
  end.
  match goal with
  | |- context [resolve_tensor_parameters ?c ?ps ?i ?d] =>
      destruct (resolve_tensor_parameters_total c ps i d T) as (tp & ->)
  end.
  reflexivity.
Qed.

(** C8: the save task [plan_tensor] appends for a weight is built on the
    vocabulary-aligning merge [TokenizerPermutationMerge] when the weight
    is one of the embedding weights of the architecture and the planner has
    a tokenizer task, and on the configured merge method otherwise; the only
    other outcome is the configuration error of the resolver, which does
    not occur when every parameter resolves. *)
Theorem plan_tensor_merge_method (name : string) (names_in : list string)
    (models : list ModelReference) (cfg_reader : ConfigReader)
    (self : MergePlanner) :
  let used :=
    match _tokenizer_task self with
    | Some tok =>
        if str_in name (embed_weights (arch_info self))
        then TokenizerPermutationMerge tok
        else _method self
    | None => _method self
    end in
  ((exists save,
       plan_tensor name names_in models cfg_reader self
       = (Ok tt, append_task (SaveTensorTask save) self)
       /\ tensor_name save = name
       /\ task_method (tensor_task save) = used)
   \/ (exists e,
          plan_tensor name names_in models cfg_reader self = (Raise e, self)
          /\ is_configuration_error e))
  /\ ((forall r n m q v, parameter r n m q v <> None) ->
      fst (plan_tensor name names_in models cfg_reader self) = Ok tt).
Proof.
  intro used. split.
  - destruct (plan_tensor_outcome name names_in models cfg_reader self)
      as [(save & E & N & _ & U & _) | R]; [left | right; exact R].
    exists save. repeat split; assumption.
  - intro T. apply plan_tensor_returns. exact T.
Qed.
End SliceFacts.

Section PlanFacts.
Context `{Collaborators}.

Lemma plan_weights_grows (self : MergePlanner) :
  grows self (snd (plan_weights self)).
Proof.
  unfold plan_weights.
  repeat
    lazymatch goal with
    | |- forall _, _ => intro
    | |- grows ?s (snd (bind _ _ ?s)) =>
        revert s; apply (@bind_related _ _ _ grows grows_trans)
    | |- grows ?s (snd (for_each _ _ ?s)) =>
        revert s; apply (@for_each_related _ _ grows grows_refl grows_trans)
    | |- grows ?s (snd (get ?s)) => apply grows_refl
    | |- grows ?s (snd (lift_result _ ?s)) => apply grows_refl
    | |- grows ?s (snd (plan_tensor _ _ _ _ ?s)) => apply plan_tensor_grows
    | |- grows ?s (snd (plan_slice _ ?s)) => apply plan_slice_grows
    end.
Qed.

(** [plan] runs the three planning loops on an emptied task list; when they
    return, the save tasks they left are followed by the finalizer, which
    holds them all, and by the tokenizer task if there is one. *)
Lemma plan_outcome (self : MergePlanner) :
  match plan_weights (set_tasks [] self) with
  | (Ok _, planned) =>
      planned = set_tasks (_tasks planned) self
      /\ forallb is_save (_tasks planned) = true
      /\ plan self
         = (Ok (_tasks planned
                ++ FinalizeModel (_tasks planned) (_writer_task self)
                   :: tokenizer_tail self),
            append_task (FinalizeModel (_tasks planned) (_writer_task self))
              planned)
  | (Raise e, planned) => plan self = (Raise e, planned)
  end.
Proof.
  pose proof (plan_weights_grows (set_tasks [] self)) as G.
  unfold plan.
  rewrite (@bind_ok _ _ _ (modify (set_tasks [])) _ self (set_tasks [] self) tt)
    by reflexivity.
  destruct (plan_weights (set_tasks [] self)) as [[[] | e] planned] eqn:W;
    [rewrite (@bind_ok _ _ _ _ _ _ _ _ W)
    | rewrite (@bind_raise _ _ _ _ _ _ _ _ W); reflexivity].
  simpl in G. destruct G as (added & S & ->).
  cbn [_tasks set_tasks app _writer_task].
  split; [reflexivity |]. split; [exact S |].
  unfold bind, get, modify, ret, append_task, tokenizer_tail.
  cbn [_tasks set_tasks app _writer_task _tokenizer_task].
  destruct (_tokenizer_task self); rewrite <- ?app_assoc; reflexivity.
Qed.

Lemma filter_saves_only (p : Task -> bool) (l : list Task) :
  forallb is_save l = true ->
  (forall t, is_save t = true -> p t = false) ->
  filter p l = [].
Proof.
  intros F D. induction l as [| t rest IH]; simpl in *; [reflexivity |].
  apply andb_prop in F. destruct F as [St Sr].
  rewrite (D t St). auto.
Qed.

Lemma filter_all (l : list Task) :
  forallb is_save l = true -> filter is_save l = l.
Proof.
  induction l as [| t rest IH]; simpl; [reflexivity |].
  intro F. apply andb_prop in F. destruct F as [-> Sr].
  rewrite IH; auto.
Qed.

(** C10: a plan that [plan] returns consists of the save tasks planned for
    the pre-weights, the slices and the post-weights, then one
    [FinalizeModel] task, then at most the tokenizer task; the finalizer is
    the only one of the plan and its dependencies are exactly those save
    tasks, which are all the save tasks of the plan. *)
Theorem plan_finalizer (self self' : MergePlanner) (res : list Task) :
  plan self = (Ok res, self') ->
  exists saves,
    plan_weights (set_tasks [] self) = (Ok tt, set_tasks saves self)
    /\ forallb is_save saves = true
    /\ res = saves ++ FinalizeModel saves (_writer_task self) :: tokenizer_tail self
    /\ filter is_finalize res = [FinalizeModel saves (_writer_task self)]
    /\ filter is_save res = saves.
Proof.
  intro E. pose proof (plan_outcome self) as O.
  destruct (plan_weights (set_tasks [] self)) as [[[] | e] planned];
    [| congruence].
  destruct O as (P & S & R). rewrite R in E. inversion E. subst res self'. clear E.
  exists (_tasks planned). rewrite <- P.
  split; [reflexivity |]. split; [exact S |]. split; [reflexivity |].
  rewrite !filter_app. simpl filter.
  rewrite (filter_saves_only is_finalize _ S) by (intros []; simpl; congruence).
  rewrite filter_all by exact S.
  unfold tokenizer_tail. destruct (_tokenizer_task self); simpl;
    rewrite ?app_nil_r; split; reflexivity.
Qed.

Lemma existsb_saves_only (l : list Task) :
  forallb is_save l = true -> existsb is_build_tokenizer l = false.
Proof.
  induction l as [| t rest IH]; simpl; [reflexivity |].
  intro F. apply andb_prop in F. destruct F as [St Sr].
  rewrite IH by exact Sr. destruct t; simpl in *; congruence.
Qed.

(** A plan that [plan] returns lists a tokenizer-build task exactly when the
    planner holds one, and it is then the last element of the plan, appended
    after the finalizer; a planner without a tokenizer task returns a plan
    with no tokenizer-build task.  The constructor gives the planner a
    tokenizer task exactly when the [merge_method] of the configuration is a
    non-empty text. *)
Lemma plan_tokenizer_task (self self' : MergePlanner) (res : list Task) :
  plan self = (Ok res, self') ->
  (existsb is_build_tokenizer res = true <-> _tokenizer_task self <> None)
  /\ (forall tok, _tokenizer_task self = Some tok ->
      exists front, res = front ++ [BuildTokenizerTask tok]
                    /\ existsb is_build_tokenizer front = false
                    /\ _tasks self' = front)
  /\ (_tokenizer_task self = None ->
      existsb is_build_tokenizer res = false /\ _tasks self' = res)
  /\ (forall c a out o,
        _tokenizer_task (MergePlanner_init c a out o) <> None
        <-> truthy_str (merge_method c) = true).
Proof.
  intro E. pose proof (plan_outcome self) as O.
  destruct (plan_weights (set_tasks [] self)) as [[[] | e] planned];
    [| congruence].
  destruct O as (P & S & R). rewrite R in E. inversion E. subst res self'. clear E R.
  set (saves := _tasks planned) in *.
  set (fin := FinalizeModel saves (_writer_task self)).
  assert (F : existsb is_build_tokenizer (saves ++ [fin]) = false).
  { rewrite existsb_app, (existsb_saves_only _ S). reflexivity. }
  assert (T : _tasks (append_task fin planned) = saves ++ [fin]) by reflexivity.
  unfold tokenizer_tail.
  split; [| split; [| split]].
  - destruct (_tokenizer_task self) as [tok |].
    + change (saves ++ fin :: [BuildTokenizerTask tok])
        with (saves ++ [fin] ++ [BuildTokenizerTask tok]).
      rewrite app_assoc, existsb_app. simpl. rewrite orb_true_r.
      split; [discriminate | reflexivity].
    + rewrite F.
      split; [discriminate | intro X; contradiction X; reflexivity].
  - intros tok ->. exists (saves ++ [fin]).
    rewrite <- app_assoc. repeat split; auto.
  - intros ->. split; [exact F | exact T].
  - intros c a out o. unfold MergePlanner_init. cbn [_tokenizer_task].
    destruct (truthy_str (merge_method c)); split; intro X;
      try discriminate; try reflexivity.
    contradiction X. reflexivity.
Qed.
End PlanFacts.

(* ===================================================================== *)
(** ** Planning returns on well-formed configurations *)
(* ===================================================================== *)

Section PlanReturns.
Context `{Collaborators}.
Hypothesis resolves : forall r n m q v, parameter r n m q v <> None.

Lemma plan_layer_returns sources layer_offset t cfg_reader self :
  fst (plan_layer sources layer_offset t cfg_reader self) = Ok tt.
Proof.
  unfold plan_layer. unfold bind at 1, get at 1.
  apply (@for_each_returns _ _ (fun _ => True)); [| exact I].
  intros fmt s _ _. split; [| exact I].
  unfold bind, get. apply plan_tensor_returns. exact resolves.
Qed.

Lemma plan_slice_returns (definition : OutputSliceDefinition) (self : MergePlanner) :
  sources definition <> [] ->
  all_equal_first (slice_lengths_of definition) = true ->
  fst (plan_slice definition self) = Ok tt.
Proof.
  intros N A. rewrite plan_slice_outcome, A. simpl negb. cbv iota.
  unfold slice_lengths_of.
  destruct (sources definition) as [| s0 rest]; [contradiction N; reflexivity |].
  simpl py_first. cbv iota.
  apply (@for_each_returns _ _ (fun _ => True)); [| exact I].
  intros idx s Iidx _. split; [| exact I].
  apply py_range_spec in Iidx.
  unfold bind, lift_result. rewrite (layer_t_fraction Iidx).
  apply plan_layer_returns.
Qed.

Lemma plan_weights_returns (self : MergePlanner) :
  well_formed_slices (config self) ->
  fst (plan_weights self) = Ok tt.
Proof.
  intros (first & rest & E & W).
  set (Inv := fun s : MergePlanner => config s = config self).
  assert (K : forall s s', Inv s -> grows s s' -> Inv s').
  { unfold Inv. intros s s' I G. apply grows_keeps in G.
    destruct G as (C & _). congruence. }
  assert (T : forall weight_name names models reader s,
             Inv s ->
             fst (plan_tensor weight_name names models reader s) = Ok tt
             /\ Inv (snd (plan_tensor weight_name names models reader s))).
  { intros. split; [apply plan_tensor_returns; exact resolves |].
    eapply K; [eassumption | apply plan_tensor_grows]. }
  unfold plan_weights. unfold bind at 1, get at 1.
  destruct (@for_each_returns _ _ Inv (pre_weights (arch_info self))
              (fun weight_name =>
                 current <- get ;;
                 first <- lift_result (subscript_first (slices (config current))) ;;
                 plan_tensor weight_name
                   (repeat weight_name (length (sources first)))
                   (map model (sources first))
                   (new_ConfigReader (config current) 0%Q (Some weight_name) None)))
    with (s := self) as [P1 I1].
  { intros w s _ Is. unfold bind, get, lift_result. rewrite Is, E. simpl.
    rewrite <- Is. apply T. exact Is. }
  { reflexivity. }
  unfold bind at 1.
  destruct (for_each (pre_weights (arch_info self)) _ self) as [[[] | e] s1];
    simpl in P1, I1; [| discriminate].
  unfold bind at 1, lift_result at 1. rewrite E. simpl iterate. cbv iota.
  destruct (@for_each_returns _ _ Inv (first :: rest) plan_slice)
    with (s := s1) as [P2 I2].
  { intros d s Id Is. split.
    - apply plan_slice_returns; apply W; exact Id.
    - eapply K; [exact Is | apply plan_slice_grows]. }
  { exact I1. }
  unfold bind at 1.
  destruct (for_each (first :: rest) plan_slice s1) as [[[] | e] s2];
    simpl in P2, I2; [| discriminate].
  apply for_each_returns with (Inv := Inv); [| exact I2].
  intros w s _ Is. unfold bind, get, lift_result. rewrite Is, E.
  assert (L : exists last, subscript_last (Some (first :: rest)) = Ok last).
  { unfold subscript_last, py_last.
    destruct (rev (first :: rest)) as [| x r] eqn:R; [| eauto].
    apply (f_equal (@length _)) in R. rewrite length_rev in R. discriminate. }
  destruct L as (last & ->). rewrite <- Is. apply T. exact Is.
Qed.

(** [plan] returns a plan for every planner whose configuration has
    well-formed slices, as long as every parameter resolves. *)
Lemma plan_returns (self : MergePlanner) :
  well_formed_slices (config self) ->
  exists res self', plan self = (Ok res, self').
Proof.
  intro W. pose proof (plan_outcome self) as O.
  pose proof (plan_weights_returns (set_tasks [] self) W) as R.
  destruct (plan_weights (set_tasks [] self)) as [[[] | e] planned];
    simpl in R; [| discriminate].
  destruct O as (_ & _ & ->). eauto.
Qed.
End PlanReturns.

(* ===================================================================== *)
(** ** The planner on concrete configurations *)
(* ===================================================================== *)

(** C3 (the code fails it): the plan of one model with a slice of two layers
    has, at positions 2 and 4, two different save tasks, reading the weights
    of layer 0 and of layer 1 of the source, that both write the output
    weight [h.0.attn.c_attn.weight]: [_current_layers] is never advanced, so
    that every layer is written under the names of layer 0. *)
Theorem stacked_layers_share_output_names :
  exists res s1 s2,
    fst (plan (H := sample) (gpt2_planner "passthrough" 2)) = Ok res
    /\ nth_error res 2 = Some (SaveTensorTask s1)
    /\ nth_error res 4 = Some (SaveTensorTask s2)
    /\ tensor_names (tensors (tensor_task s1)) = [(gpt2, "h.0.attn.c_attn.weight")]
    /\ tensor_names (tensors (tensor_task s2)) = [(gpt2, "h.1.attn.c_attn.weight")]
    /\ s1 <> s2
    /\ tensor_name s1 = "h.0.attn.c_attn.weight"
    /\ tensor_name s2 = "h.0.attn.c_attn.weight"
    /\ ~ NoDup (save_names res).
Proof.
  eexists _, _, _.
  split; [vm_compute; reflexivity |].
  split; [vm_compute; reflexivity |].
  split; [vm_compute; reflexivity |].
  split; [reflexivity |].
  split; [reflexivity |].
  split; [intro E; discriminate E |].
  split; [reflexivity |].
  split; [reflexivity |].
  cbn [save_names flat_map app tensor_name].
  intro N. inversion N as [| ? ? _ N1]. inversion N1 as [| ? ? _ N2].
  inversion N2 as [| ? ? I _]. apply I. cbn. right. left. reflexivity.
Qed.

Lemma plan_slice_unequal_lengths_witness :
  fst (plan_slice (H := sample) uneven_slice (gpt2_planner "linear" 2))
  = Raise (RuntimeError slice_length_message).
Proof.
  apply (proj1 (plan_slice_unequal_lengths (H := sample) uneven_slice
                  (gpt2_planner "linear" 2))).
  exists (mkInputSliceDefinition gpt2 (0, 2)), (mkInputSliceDefinition gpt2 (4, 7)).
  split; [reflexivity |]. split; [right; left; reflexivity |].
  vm_compute. discriminate.
Defined.

Lemma plan_slice_interpolation_witness :
  (forall idx, In idx (py_range 3) <-> 0 <= idx < 3)
  /\ (forall idx, 0 <= idx < 3 -> layer_t 3 idx = Ok (interpolation_fraction 3 idx))
  /\ plan_slice (H := sample) three_layer_slice (gpt2_planner "passthrough" 3)
     = for_each (py_range 3) (fun idx =>
         plan_layer (H := sample) (sources three_layer_slice) idx
           (interpolation_fraction 3 idx)
           (slice_reader (H := sample) three_layer_slice
              (gpt2_planner "passthrough" 3)))
         (gpt2_planner "passthrough" 3)
  /\ (forall idx current,
      plan_layer (H := sample) (sources three_layer_slice) idx
        (interpolation_fraction 3 idx)
        (slice_reader (H := sample) three_layer_slice (gpt2_planner "passthrough" 3))
        current
      = for_each (layer_weight_formats (arch_info current)) (fun name_format =>
          bind get (fun now =>
            plan_tensor (H := sample)
              (format_idx name_format (_current_layers now))
              (map (fun s => format_idx name_format (fst (layer_range s) + idx))
                   (sources three_layer_slice))
              (map model (sources three_layer_slice))
              (with_t (Collaborators := sample)
                 (slice_reader (H := sample) three_layer_slice
                    (gpt2_planner "passthrough" 3))
                 (interpolation_fraction 3 idx))))
          current).
Proof.
  apply (plan_slice_interpolation (H := sample) three_layer_slice
           (gpt2_planner "passthrough" 3) (n := 3));
    reflexivity.
Defined.

Lemma plan_tensor_merge_method_witness :
  let self := gpt2_planner "passthrough" 2 in
  let reader := new_ConfigReader (Collaborators := sample)
                  (gpt2_slice_config "passthrough" 2) 0%Q (Some "wte.weight") None in
  let used := TokenizerPermutationMerge
                (mkBuildTokenizer (gpt2_slice_config "passthrough" 2) false) in
  (exists save,
      plan_tensor (H := sample) "wte.weight" ["wte.weight"] [gpt2] reader self
      = (Ok tt, append_task (SaveTensorTask save) self)
      /\ tensor_name save = "wte.weight"
      /\ task_method (tensor_task save) = used)
  \/ (exists e,
         plan_tensor (H := sample) "wte.weight" ["wte.weight"] [gpt2] reader self
         = (Raise e, self)
         /\ is_configuration_error e).
Proof.
  intros self reader used.
  exact (proj1 (plan_tensor_merge_method (H := sample) "wte.weight" ["wte.weight"]
                  [gpt2] reader self)).
Defined.

(** C9 (the code fails it): the configuration of [test_gpt2_stack] names a
    merge method, a slice and a dtype, and requests no tokenizer; the plan of
    its planner nevertheless ends with a tokenizer-build task.  The
    constructor builds that task for every configuration that has a merge
    method, and [plan] then appends it to every plan it returns. *)
Theorem tokenizer_task_without_request :
  (exists front,
      fst (plan (H := sample) gpt2_stack_planner)
      = Ok (front ++ [BuildTokenizerTask (mkBuildTokenizer gpt2_stack_config false)])
      /\ existsb is_build_tokenizer front = false)
  /\ (forall (H : Collaborators) c a out o res self',
        truthy_str (merge_method c) = true ->
        plan (MergePlanner_init c a out o) = (Ok res, self') ->
        exists front,
          res = front
                ++ [BuildTokenizerTask (mkBuildTokenizer c (trust_remote_code o))]
          /\ existsb is_build_tokenizer front = false).
Proof.
  assert (G : forall (H : Collaborators) c a out o res self',
             truthy_str (merge_method c) = true ->
             plan (MergePlanner_init c a out o) = (Ok res, self') ->
             exists front,
               res = front
                     ++ [BuildTokenizerTask
                           (mkBuildTokenizer c (trust_remote_code o))]
               /\ existsb is_build_tokenizer front = false).
  { intros H c a out o res self' T E.
    destruct (plan_tokenizer_task _ E) as (_ & Tok & _).
    destruct (Tok (mkBuildTokenizer c (trust_remote_code o)))
      as (front & R & F & _).
    - unfold MergePlanner_init. cbn [_tokenizer_task]. rewrite T. reflexivity.
    - exists front. auto. }
  split; [| exact G].
  destruct (G sample gpt2_stack_config gpt2_info "out" default_MergeOptions
              (planned_tasks (fst (plan (H := sample) gpt2_stack_planner)))
              (snd (plan (H := sample) gpt2_stack_planner)))
    as (front & R & F).
  - reflexivity.
  - vm_compute. reflexivity.
  - exists front. split; [| exact F].
    assert (E : fst (plan (H := sample) gpt2_stack_planner)
                = Ok (planned_tasks (fst (plan (H := sample) gpt2_stack_planner))))
      by (vm_compute; reflexivity).
    rewrite E, R. reflexivity.
Qed.

Lemma plan_finalizer_witness :
  exists saves,
    plan_weights (H := sample) (set_tasks [] (gpt2_planner "passthrough" 2))
    = (Ok tt, set_tasks saves (gpt2_planner "passthrough" 2))
    /\ forallb is_save saves = true
    /\ planned_tasks (fst (plan (H := sample) (gpt2_planner "passthrough" 2)))
       = saves ++ FinalizeModel saves (_writer_task (gpt2_planner "passthrough" 2))
                  :: tokenizer_tail (gpt2_planner "passthrough" 2)
    /\ filter is_finalize
         (planned_tasks (fst (plan (H := sample) (gpt2_planner "passthrough" 2))))
       = [FinalizeModel saves (_writer_task (gpt2_planner "passthrough" 2))]
    /\ filter is_save
         (planned_tasks (fst (plan (H := sample) (gpt2_planner "passthrough" 2))))
       = saves.
Proof.
  apply (plan_finalizer (H := sample) (gpt2_planner "passthrough" 2)
           (self' := snd (plan (H := sample) (gpt2_planner "passthrough" 2)))).
  vm_compute. reflexivity.
Defined.

(* ===================================================================== *)
(** ** Dictionaries *)
(* ===================================================================== *)

Section DictFacts.
Variables K V : Type.
Variable eqb : K -> K -> bool.
Hypothesis eqb_eq : forall a b, eqb a b = true <-> a = b.

Lemma eqb_same (a : K) : eqb a a = true.
Proof. apply eqb_eq. reflexivity. Qed.

Lemma existsb_eqb_in (k : K) (keys : list K) :
  existsb (eqb k) keys = true <-> In k keys.
Proof.
  rewrite existsb_exists. split.
  - intros (x & I & E). apply eqb_eq in E. subst. exact I.
  - intro I. exists k. split; [exact I | apply eqb_same].
Qed.

Lemma dict_set_keys (d : list (K * V)) (k : K) (v : V) :
  map fst (dict_set eqb d k v) = keys_add eqb (map fst d) k.
Proof.
  unfold keys_add. induction d as [| [k' v'] rest IH]; simpl; [reflexivity |].
  destruct (eqb k k') eqn:E; simpl; [reflexivity |].
  rewrite IH. destruct (existsb (eqb k) (map fst rest)); reflexivity.
Qed.

Lemma dict_get_set (d : list (K * V)) (k k' : K) (v : V) :
  dict_get eqb (dict_set eqb d k v) k'
  = if eqb k' k then Some v else dict_get eqb d k'.
Proof.
  unfold dict_get. induction d as [| [k0 v0] rest IH]; simpl.
  - destruct (eqb k' k); reflexivity.
  - destruct (eqb k k0) eqn:E; simpl.
    + apply eqb_eq in E. subst k0.
      destruct (eqb k' k); reflexivity.
    + destruct (eqb k' k0) eqn:E0; simpl.
      * destruct (eqb k' k) eqn:E1; [| reflexivity].
        apply eqb_eq in E0, E1. subst. rewrite eqb_same in E. discriminate.
      * exact IH.
Qed.

Lemma keys_add_nodup (keys : list K) (k : K) :
  NoDup keys -> NoDup (keys_add eqb keys k).
Proof.
  intro N. unfold keys_add.
  destruct (existsb (eqb k) keys) eqn:E; [exact N |].
  apply NoDup_app; [exact N | repeat constructor; intros [] | ].
  intros x Ix [<- | []].
  apply existsb_eqb_in in Ix. congruence.
Qed.

Lemma keys_add_in (keys : list K) (k x : K) :
  In x (keys_add eqb keys k) <-> x = k \/ In x keys.
Proof.
  unfold keys_add. destruct (existsb (eqb k) keys) eqn:E.
  - apply existsb_eqb_in in E. split; [auto | intros [-> | I]; auto].
  - rewrite in_app_iff. simpl. intuition.
Qed.

Lemma fold_keys_nodup (ks keys : list K) :
  NoDup keys -> NoDup (fold_left (keys_add eqb) ks keys).
Proof.
  revert keys. induction ks as [| k rest IH]; intros keys N; simpl; [exact N |].
  apply IH. apply keys_add_nodup. exact N.
Qed.

Lemma fold_keys_in (ks keys : list K) (x : K) :
  In x (fold_left (keys_add eqb) ks keys) <-> In x ks \/ In x keys.
Proof.
  revert keys. induction ks as [| k rest IH]; intro keys; simpl; [tauto |].
  rewrite IH, keys_add_in. intuition.
Qed.

Lemma dict_fold_keys (items : list (K * V)) (d : list (K * V)) :
  map fst (fold_left (fun d kv => dict_set eqb d (fst kv) (snd kv)) items d)
  = fold_left (keys_add eqb) (map fst items) (map fst d).
Proof.
  revert d. induction items as [| [k v] rest IH]; intro d; simpl; [reflexivity |].
  rewrite IH, dict_set_keys. reflexivity.
Qed.

Lemma dict_fold_get_other (items : list (K * V)) (d : list (K * V)) (k : K) :
  ~ In k (map fst items) ->
  dict_get eqb (fold_left (fun d kv => dict_set eqb d (fst kv) (snd kv)) items d) k
  = dict_get eqb d k.
Proof.
  revert d. induction items as [| [k0 v0] rest IH]; intros d N; simpl; [reflexivity |].
  simpl in N. rewrite IH by tauto. rewrite dict_get_set.
  destruct (eqb k k0) eqn:E; [| reflexivity].
  apply eqb_eq in E. subst. tauto.
Qed.

(** The value found under a key is the one of the last item of that key. *)
Lemma dict_of_get_last (front back : list (K * V)) (k : K) (v : V) :
  ~ In k (map fst back) ->
  dict_get eqb (dict_of eqb (front ++ (k, v) :: back)) k = Some v.
Proof.
  intro N. unfold dict_of. rewrite fold_left_app. simpl.
  rewrite dict_fold_get_other by exact N.
  rewrite dict_get_set, eqb_same. reflexivity.
Qed.
End DictFacts.

Lemma opt_eqb_eq (a b : option string) : opt_eqb String.eqb a b = true <-> a = b.
Proof.
  destruct a as [x |], b as [y |]; simpl; split; intro E;
    try discriminate; try reflexivity.
  - apply String.eqb_eq in E. congruence.
  - inversion E. apply String.eqb_refl.
Qed.

Lemma ModelReference_eqb_eq (a b : ModelReference) :
  ModelReference_eqb a b = true <-> a = b.
Proof.
  unfold ModelReference_eqb. split.
  - intro E. apply andb_prop in E. destruct E as [P L].
    apply String.eqb_eq in P. apply opt_eqb_eq in L.
    destruct a, b; simpl in *. congruence.
  - intros ->. apply andb_true_intro. split.
    + apply String.eqb_refl.
    + apply opt_eqb_eq. reflexivity.
Qed.

(* ===================================================================== *)
(** ** The dictionaries of a planned tensor *)
(* ===================================================================== *)

Lemma dict_get_in (d : list (string * Value)) (k : string) :
  In k (map fst d) -> exists v, dict_get String.eqb d k = Some v.
Proof.
  unfold dict_get. induction d as [| [k0 v0] rest IH]; simpl; [tauto |].
  intros [-> | I].
  - rewrite String.eqb_refl. simpl. eauto.
  - destruct (String.eqb k k0); simpl; eauto.
Qed.

Section TensorDictionaries.
Context `{Collaborators}.

(** The save task of a call of [plan_tensor] that returns. *)
Lemma plan_tensor_result name names_in models cfg_reader self self' :
  plan_tensor name names_in models cfg_reader self = (Ok tt, self') ->
  exists global_params tensor_params,
    resolve_parameters (for_tensor (for_in_slices cfg_reader None) name) name None
      (method_parameters (tensor_merge_method_of self name)) [] = Ok global_params
    /\ resolve_tensor_parameters cfg_reader
         (method_tensor_parameters (tensor_merge_method_of self name))
         (combine models names_in) [] = Ok tensor_params
    /\ self' = append_task
         (SaveTensorTask
            {| tensor_name := name;
               tensor_task :=
                 {| task_method := tensor_merge_method_of self name;
                    output_tensor_name := name;
                    tensors :=
                      {| tensor_names :=
                           dict_of ModelReference_eqb (combine models names_in);
                         gather_dtype := dtype (config self) |};
                    parameters := global_params;
                    tensor_parameters := tensor_params;
                    task_base_model :=
                      if truthy_opt_str (base_model (config self))
                      then option_map ModelReference_parse (base_model (config self))
                      else None |};
               writer_task := _writer_task self;
               clone := planner_clone_tensors self |}) self.
Proof.
  unfold plan_tensor, bind, get, lift_result, modify.
  destruct (resolve_parameters _ name None _ []) as [gp | e]; [| discriminate].
  destruct (resolve_tensor_parameters cfg_reader _ _ []) as [tp | e]; [| discriminate].
  intro E. inversion E. eauto.
Qed.

Lemma resolve_parameters_keys cfg tensor model ps d d' :
  resolve_parameters cfg tensor model ps d = Ok d' ->
  map fst d' = fold_left (keys_add String.eqb) (map name ps) (map fst d).
Proof.
  revert d. induction ps as [| p rest IH]; intro d; simpl.
  - intro E. inversion E. reflexivity.
  - destruct (parameter cfg (name p) model (required p) (default_value p));
      [| discriminate].
    intro E. rewrite (IH _ E), dict_set_keys. reflexivity.
Qed.

Lemma resolve_parameters_origin cfg tensor model ps d d' k v :
  resolve_parameters cfg tensor model ps d = Ok d' ->
  dict_get String.eqb d' k = Some v ->
  dict_get String.eqb d k = Some v
  \/ exists p, In p ps /\ name p = k
               /\ parameter cfg k model (required p) (default_value p) = Some v.
Proof.
  revert d. induction ps as [| p rest IH]; intro d; simpl.
  - intro E. inversion E. auto.
  - destruct (parameter cfg (name p) model (required p) (default_value p))
      as [v0 |] eqn:P; [| discriminate].
    intros E G. destruct (IH _ E G) as [G0 | (q & Iq & Nq & Pq)].
    + rewrite (dict_get_set String.eqb String.eqb_eq) in G0.
      destruct (String.eqb k (name p)) eqn:Ek; [| auto].
      apply String.eqb_eq in Ek. subst k. inversion G0. subst v0.
      right. exists p. auto.
    + right. exists q. auto.
Qed.

Lemma resolve_tensor_parameters_keys cfg ps items d d' :
  resolve_tensor_parameters cfg ps items d = Ok d' ->
  map fst d' = fold_left (keys_add ModelReference_eqb) (map fst items) (map fst d).
Proof.
  revert d. induction items as [| [m n] rest IH]; intro d; simpl.
  - intro E. inversion E. reflexivity.
  - destruct (resolve_parameters (for_tensor cfg n) n (Some m) ps []);
      [| discriminate].
    intro E. rewrite (IH _ E), dict_set_keys. reflexivity.
Qed.

(** X1: a call of [plan_tensor] that returns has appended one save task whose
    gather dictionary holds every model of [zip(models, names_in)] exactly
    once, under the input name of the last pair of that model; the per-model
    parameter dictionary of the merge task has the same keys in the same
    order. *)
Theorem plan_tensor_gathers_each_model_once (name : string)
    (names_in : list string) (models : list ModelReference)
    (cfg_reader : ConfigReader) (self self' : MergePlanner) :
  plan_tensor name names_in models cfg_reader self = (Ok tt, self') ->
  exists save,
    self' = append_task (SaveTensorTask save) self
    /\ NoDup (map fst (tensor_names (tensors (tensor_task save))))
    /\ (forall m, In m (map fst (tensor_names (tensors (tensor_task save))))
                  <-> In m (map fst (combine models names_in)))
    /\ (forall front back m n,
          combine models names_in = front ++ (m, n) :: back ->
          ~ In m (map fst back) ->
          dict_get ModelReference_eqb
            (tensor_names (tensors (tensor_task save))) m = Some n)
    /\ map fst (tensor_parameters (tensor_task save))
       = map fst (tensor_names (tensors (tensor_task save))).
Proof.
  intro E. apply plan_tensor_result in E.
  destruct E as (gp & tp & _ & T & ->).
  eexists. split; [reflexivity |]. cbn [tensor_task tensors tensor_names tensor_parameters].
  unfold dict_of. rewrite dict_fold_keys.
  split; [apply (fold_keys_nodup ModelReference_eqb ModelReference_eqb_eq); constructor |].
  split.
  { intro m. rewrite (fold_keys_in ModelReference_eqb ModelReference_eqb_eq). simpl. tauto. }
  split.
  { intros front back m n -> N.
    apply (dict_of_get_last ModelReference_eqb ModelReference_eqb_eq). exact N. }
  apply resolve_tensor_parameters_keys in T. exact T.
Qed.

(** X2: in the save task of a call of [plan_tensor] that returns, the
    parameter dictionary of the merge task has one entry per declared
    parameter name of the merge method used, and every entry holds a value
    the resolver returned, at tensor scope and without a model, for a declared
    parameter of that name. *)
Theorem plan_tensor_resolves_declared_parameters (weight : string)
    (names_in : list string) (models : list ModelReference)
    (cfg_reader : ConfigReader) (self self' : MergePlanner) :
  plan_tensor weight names_in models cfg_reader self = (Ok tt, self') ->
  exists save,
    self' = append_task (SaveTensorTask save) self
    /\ NoDup (map fst (parameters (tensor_task save)))
    /\ (forall p, In p (method_parameters (task_method (tensor_task save))) ->
                  exists v, dict_get String.eqb (parameters (tensor_task save))
                              (name p) = Some v)
    /\ (forall k v,
          dict_get String.eqb (parameters (tensor_task save)) k = Some v ->
          exists p, In p (method_parameters (task_method (tensor_task save)))
                    /\ name p = k
                    /\ parameter (for_tensor (for_in_slices cfg_reader None) weight)
                         k None (required p) (default_value p) = Some v).
Proof.
  intro E. apply plan_tensor_result in E.
  destruct E as (gp & tp & G & _ & ->).
  eexists. split; [reflexivity |]. cbn [tensor_task parameters task_method].
  pose proof (resolve_parameters_keys _ _ _ _ _ G) as Kz. simpl in Kz.
  split; [| split].
  - rewrite Kz. apply (fold_keys_nodup String.eqb String.eqb_eq). constructor.
  - intros p Ip. apply dict_get_in. rewrite Kz.
    apply (fold_keys_in String.eqb String.eqb_eq). left. apply in_map. exact Ip.
  - intros k v Gk.
    destruct (resolve_parameters_origin _ _ _ _ _ k G Gk) as [X | X];
      [discriminate | exact X].
Qed.
End TensorDictionaries.

(* ===================================================================== *)
(** ** The output names of a plan *)
(* ===================================================================== *)

Lemma bind_inv (S A B : Type) (m : M S A) (k : A -> M S B) (s s' : S) (b : B) :
  bind m k s = (Ok b, s') ->
  exists a s1, m s = (Ok a, s1) /\ k a s1 = (Ok b, s').
Proof.
  unfold bind. destruct (m s) as [[a | e] s1]; [eauto | discriminate].
Qed.

Lemma save_names_app (a b : list Task) :
  save_names (a ++ b) = save_names a ++ save_names b.
Proof. unfold save_names. apply flat_map_app. Qed.

Lemma save_names_length (l : list Task) :
  forallb is_save l = true -> length (save_names l) = length l.
Proof.
  induction l as [| t rest IH]; simpl; [reflexivity |].
  intro F. apply andb_prop in F. destruct F as [St Sr].
  destruct t; try discriminate. simpl. rewrite IH; auto.
Qed.

Lemma adds_refl (self : MergePlanner) : adds [] self self.
Proof.
  exists []. repeat split. rewrite app_nil_r. symmetry. apply set_tasks_same.
Qed.

Lemma adds_trans (n1 n2 : list string) (s1 s2 s3 : MergePlanner) :
  adds n1 s1 s2 -> adds n2 s2 s3 -> adds (n1 ++ n2) s1 s3.
Proof.
  intros (a1 & F1 & N1 & ->) (a2 & F2 & N2 & ->).
  exists (a1 ++ a2). split; [| split].
  - rewrite forallb_app, F1, F2. reflexivity.
  - rewrite save_names_app, N1, N2. reflexivity.
  - unfold set_tasks. simpl. rewrite app_assoc. reflexivity.
Qed.

Lemma adds_grows (names : list string) (s s' : MergePlanner) :
  adds names s s' -> grows s s'.
Proof. intros (a & F & _ & E). exists a. auto. Qed.

(** A loop on the planner appends the names of its turns, one turn after
    the other. *)
Lemma for_each_adds (A : Type) (s0 : MergePlanner) (f : A -> list string)
    (l : list A) (body : A -> M MergePlanner unit) :
  (forall x s s', In x l -> grows s0 s -> body x s = (Ok tt, s') ->
                  adds (f x) s s') ->
  forall s s', grows s0 s -> for_each l body s = (Ok tt, s') ->
               adds (flat_map f l) s s'.
Proof.
  induction l as [| x rest IH]; intros Hb s s' G E; simpl in *.
  - inversion E. apply adds_refl.
  - apply bind_inv in E. destruct E as ([] & s1 & E1 & E2).
    pose proof (Hb x s s1 (or_introl eq_refl) G E1) as A1.
    eapply adds_trans; [exact A1 |].
    apply IH; auto.
    eapply grows_trans; [exact G | eapply adds_grows; exact A1].
Qed.

Lemma flat_map_singleton (A B : Type) (g : A -> B) (l : list A) :
  flat_map (fun x => [g x]) l = map g l.
Proof. induction l; simpl; congruence. Qed.

Lemma flat_map_unit (A : Type) (l : list A) : flat_map (fun x => [x]) l = l.
Proof. induction l; simpl; congruence. Qed.

Lemma flat_map_constant (A B : Type) (c : list B) (l : list A) :
  flat_map (fun _ => c) l = concat (repeat c (length l)).
Proof. induction l; simpl; congruence. Qed.

Lemma py_range_length (n : Z) : length (py_range n) = Z.to_nat n.
Proof. unfold py_range. rewrite length_map, length_seq. reflexivity. Qed.

Lemma grows_layer_names (s0 s : MergePlanner) :
  grows s0 s -> layer_names s = layer_names s0.
Proof.
  intro G. apply grows_keeps in G. destruct G as (_ & A & _ & _ & L & _).
  unfold layer_names. rewrite A, L. reflexivity.
Qed.

Section PlanNames.
Context `{Collaborators}.

Lemma plan_tensor_adds name names_in models cfg_reader s s' :
  plan_tensor name names_in models cfg_reader s = (Ok tt, s') ->
  adds [name] s s'.
Proof.
  intro E.
  destruct (plan_tensor_outcome name names_in models cfg_reader s)
    as [(save & E' & N & _) | (e & E' & _)]; rewrite E' in E; [| discriminate].
  inversion E. exists [SaveTensorTask save]. repeat split.
  simpl. rewrite N. reflexivity.
Qed.

Lemma plan_layer_adds sources layer_offset t cfg_reader s s' :
  plan_layer sources layer_offset t cfg_reader s = (Ok tt, s') ->
  adds (layer_names s) s s'.
Proof.
  unfold plan_layer. unfold bind at 1, get at 1. intro E.
  unfold layer_names. rewrite <- flat_map_singleton.
  eapply (for_each_adds (s0 := s)); [| apply grows_refl | exact E].
  intros fmt s1 s2 _ G E1. unfold bind, get in E1.
  apply grows_keeps in G. destruct G as (_ & _ & _ & _ & L & _).
  rewrite <- L. eapply plan_tensor_adds. exact E1.
Qed.

Lemma plan_slice_adds (d : OutputSliceDefinition) (s s' : MergePlanner) :
  plan_slice d s = (Ok tt, s') ->
  adds (concat (repeat (layer_names s) (slice_layers d))) s s'.
Proof.
  rewrite plan_slice_outcome.
  destruct (negb (all_equal_first (slice_lengths_of d))); [discriminate |].
  unfold slice_layers, slice_lengths_of.
  destruct (sources d) as [| first rest] eqn:Src; [discriminate |].
  simpl py_first. cbv iota. fold (layers_of first). intro E.
  rewrite <- py_range_length, <- flat_map_constant.
  eapply (for_each_adds (s0 := s)); [| apply grows_refl | exact E].
  intros idx s1 s2 _ G E1. apply bind_inv in E1.
  destruct E1 as (t & s1' & L & P). unfold lift_result in L.
  inversion L. subst s1'.
  rewrite <- (grows_layer_names G). eapply plan_layer_adds. exact P.
Qed.

Lemma plan_weights_adds (s s' : MergePlanner) :
  plan_weights s = (Ok tt, s') ->
  exists l, slices (config s) = Some l /\ adds (plan_names s l) s s'.
Proof.
  unfold plan_weights. unfold bind at 1, get at 1. intro E.
  apply bind_inv in E. destruct E as ([] & s1 & E1 & E).
  apply bind_inv in E. destruct E as (l & s1' & I & E).
  unfold lift_result in I. inversion I as [[Il Is]]. subst s1'.
  destruct (slices (config s)) as [sl |] eqn:Sl; [| discriminate].
  simpl in Il. inversion Il. subst l. clear I Il.
  apply bind_inv in E. destruct E as ([] & s2 & E2 & E3).
  exists sl. split; [reflexivity |]. unfold plan_names.
  assert (A1 : adds (pre_weights (arch_info s)) s s1).
  { rewrite <- (flat_map_unit (pre_weights (arch_info s))).
    eapply (for_each_adds (s0 := s)); [| apply grows_refl | exact E1].
    intros w sa sb _ G Ea. unfold bind, get, lift_result in Ea.
    destruct (subscript_first (slices (config sa))); [| discriminate].
    eapply plan_tensor_adds. exact Ea. }
  pose proof (adds_grows A1) as G1.
  assert (A2 : adds (flat_map
                       (fun d => concat (repeat (layer_names s) (slice_layers d)))
                       sl) s1 s2).
  { eapply (for_each_adds (s0 := s)); [| exact G1 | exact E2].
    intros d sa sb _ G Ea. rewrite <- (grows_layer_names G).
    apply plan_slice_adds. exact Ea. }
  assert (G2 : grows s s2).
  { eapply grows_trans; [exact G1 | eapply adds_grows; exact A2]. }
  assert (A3 : adds (post_weights (arch_info s)) s2 s').
  { rewrite <- (flat_map_unit (post_weights (arch_info s))).
    eapply (for_each_adds (s0 := s)); [| exact G2 | exact E3].
    intros w sa sb _ G Ea. unfold bind, get, lift_result in Ea.
    destruct (subscript_last (slices (config sa))); [| discriminate].
    eapply plan_tensor_adds. exact Ea. }
  eapply adds_trans; [exact A1 |]. eapply adds_trans; [exact A2 | exact A3].
Qed.

(** The save tasks of a returned plan and their names. *)
Lemma plan_saves (self self' : MergePlanner) (res : list Task) :
  plan self = (Ok res, self') ->
  exists l saves,
    slices (config self) = Some l
    /\ forallb is_save saves = true
    /\ save_names saves = plan_names self l
    /\ res = saves ++ FinalizeModel saves (_writer_task self) :: tokenizer_tail self.
Proof.
  intro E. pose proof (plan_outcome self) as O.
  destruct (plan_weights (set_tasks [] self)) as [[[] | e] planned] eqn:W;
    [| congruence].
  destruct O as (_ & _ & R). rewrite R in E. inversion E. clear E R.
  apply plan_weights_adds in W. destruct W as (l & Sl & (added & F & N & ->)).
  exists l, added. simpl in *. auto.
Qed.
End PlanNames.

Lemma concat_repeat_length (A : Type) (c : list A) (n : nat) :
  length (concat (repeat c n)) = (n * length c)%nat.
Proof.
  induction n as [| n IH]; simpl; [reflexivity |].
  rewrite length_app, IH. reflexivity.
Qed.

Lemma plan_names_length (self : MergePlanner) (l : list OutputSliceDefinition) :
  length (plan_names self l)
  = (length (pre_weights (arch_info self))
     + length (layer_weight_formats (arch_info self))
       * list_sum (map slice_layers l)
     + length (post_weights (arch_info self)))%nat.
Proof.
  unfold plan_names. rewrite !length_app.
  assert (X : length (flat_map
                (fun d => concat (repeat (layer_names self) (slice_layers d))) l)
              = (length (layer_weight_formats (arch_info self))
                 * list_sum (map slice_layers l))%nat).
  { induction l as [| d rest IH]; simpl; [lia |].
    rewrite length_app, IH, concat_repeat_length.
    unfold layer_names. rewrite length_map. lia. }
  rewrite X. lia.
Qed.

Section PlanShape.
Context `{Collaborators}.

(** X3: the save tasks of a returned plan write, in this order, the
    pre-weights, then for every slice and every layer of it the layer
    templates formatted with the [_current_layers] of the planner, then the
    post-weights; the names of a layer do not depend on the slice or on the
    layer. *)
Theorem plan_output_names (self self' : MergePlanner) (res : list Task) :
  plan self = (Ok res, self') ->
  exists l,
    slices (config self) = Some l
    /\ save_names res
       = pre_weights (arch_info self)
         ++ flat_map
              (fun d =>
                 concat (repeat
                           (map (fun name_format =>
                                   format_idx name_format (_current_layers self))
                                (layer_weight_formats (arch_info self)))
                           (slice_layers d))) l
         ++ post_weights (arch_info self).
Proof.
  intro E. apply plan_saves in E.
  destruct E as (l & saves & Sl & F & N & ->).
  exists l. split; [exact Sl |].
  rewrite save_names_app. simpl save_names.
  unfold tokenizer_tail. unfold plan_names, layer_names in N.
  destruct (_tokenizer_task self); simpl; rewrite app_nil_r; exact N.
Qed.

(** X4: a returned plan holds one save task per pre-weight, per post-weight
    and per layer template of each layer of each slice, a slice counting as
    many layers as its first source spans; with the finalizer and the
    tokenizer task, if any, these are all its tasks. *)
Theorem plan_task_count (self self' : MergePlanner) (res : list Task) :
  plan self = (Ok res, self') ->
  exists l,
    slices (config self) = Some l
    /\ length (filter is_save res)
       = (length (pre_weights (arch_info self))
          + length (layer_weight_formats (arch_info self))
            * list_sum (map slice_layers l)
          + length (post_weights (arch_info self)))%nat
    /\ length res
       = (length (filter is_save res) + 1 + length (tokenizer_tail self))%nat.
Proof.
  intro E. apply plan_saves in E.
  destruct E as (l & saves & Sl & F & N & ->).
  exists l. split; [exact Sl |].
  assert (X : filter is_save
                (saves ++ FinalizeModel saves (_writer_task self)
                          :: tokenizer_tail self) = saves).
  { rewrite filter_app, (filter_all _ F). simpl.
    unfold tokenizer_tail. destruct (_tokenizer_task self); simpl;
      apply app_nil_r. }
  rewrite X. split.
  - rewrite <- (save_names_length _ F), N. apply plan_names_length.
  - rewrite length_app. simpl. lia.
Qed.

(** Whatever its outcome, [plan] leaves a planner that differs from the one
    it started on by its task list only. *)
Lemma plan_final_planner (self : MergePlanner) :
  exists tasks, snd (plan self) = set_tasks tasks self.
Proof.
  pose proof (plan_outcome self) as O.
  pose proof (plan_weights_grows (set_tasks [] self)) as G.
  destruct (plan_weights (set_tasks [] self)) as [[[] | e] planned].
  - destruct O as (P & _ & ->). simpl. rewrite P. eexists. reflexivity.
  - rewrite O. simpl in *. destruct G as (added & _ & ->).
    eexists. reflexivity.
Qed.

(** X5: planning writes to [_tasks] only: after [plan], returned or raised,
    the configuration, the architecture, the merge method, the writer task,
    the tokenizer task, the clone flag and the layer counter
    [_current_layers] of the planner are what they were. *)
Theorem plan_only_changes_tasks (self : MergePlanner) :
  config (snd (plan self)) = config self
  /\ arch_info (snd (plan self)) = arch_info self
  /\ _method (snd (plan self)) = _method self
  /\ _writer_task (snd (plan self)) = _writer_task self
  /\ _tokenizer_task (snd (plan self)) = _tokenizer_task self
  /\ planner_clone_tensors (snd (plan self)) = planner_clone_tensors self
  /\ _current_layers (snd (plan self)) = _current_layers self.
Proof.
  destruct (plan_final_planner self) as (tasks & ->). repeat split.
Qed.

(** X6: [plan] starts by emptying [_tasks], so that it does not depend on the
    tasks the planner holds: planning again on the planner a first call left
    gives the same outcome and leaves the same planner. *)
Theorem plan_is_repeatable (self : MergePlanner) :
  (forall tasks, plan (set_tasks tasks self) = plan self)
  /\ plan (snd (plan self)) = plan self.
Proof.
  assert (R : forall tasks, plan (set_tasks tasks self) = plan self)
    by reflexivity.
  split; [exact R |].
  destruct (plan_final_planner self) as (tasks & ->). apply R.
Qed.

(** X7: a slice without sources passes the length check, vacuously, and
    [plan_slice] then raises the [IndexError] of [slice_lengths[0]], leaving
    the planner as it was. *)
Theorem plan_slice_without_sources (definition : OutputSliceDefinition)
    (self : MergePlanner) :
  sources definition = [] ->
  plan_slice definition self
  = (Raise (IndexError "list index out of range"), self).
Proof.
  intro E. rewrite plan_slice_outcome. unfold slice_lengths_of. rewrite E.
  reflexivity.
Qed.

(** X8: a slice whose sources all span the same number of layers, zero or
    negative, is planned without any task and without any error. *)
Theorem plan_slice_without_layers (definition : OutputSliceDefinition)
    (self : MergePlanner) (first : InputSliceDefinition)
    (rest : list InputSliceDefinition) :
  sources definition = first :: rest ->
  (forall s, In s rest -> layers_of s = layers_of first) ->
  layers_of first <= 0 ->
  plan_slice definition self = (Ok tt, self).
Proof.
  intros E A N. rewrite plan_slice_outcome.
  assert (P : all_equal_first (slice_lengths_of definition) = true).
  { destruct (all_equal_first (slice_lengths_of definition)) eqn:F; auto.
    apply all_equal_first_false in F. destruct F as (f & x & Pf & Ix & Nx).
    unfold slice_lengths_of in Pf, Ix. rewrite E in Pf, Ix. simpl in Pf.
    inversion Pf. subst f. apply in_map_iff in Ix.
    destruct Ix as (s & <- & [<- | Is]); [contradiction Nx; reflexivity |].
    contradiction Nx. apply (A s Is). }
  rewrite P. unfold slice_lengths_of. rewrite E. simpl.
  fold (layers_of first). unfold py_range.
  replace (Z.to_nat (layers_of first)) with O by lia. reflexivity.
Qed.

(** X9: a planner whose configuration has no slice list (a configuration
    given by models only) cannot plan: [plan] raises a [TypeError] on the
    first use of the slice list, before any task is planned. *)
Theorem plan_without_slice_list (self : MergePlanner) :
  slices (config self) = None ->
  exists msg, plan self = (Raise (TypeError msg), set_tasks [] self).
Proof.
  intro E. unfold plan, plan_weights.
  destruct (pre_weights (arch_info self)) as [| w rest] eqn:P;
    repeat progress
      (unfold bind, modify, ret, get, lift_result;
       cbn [config set_tasks arch_info for_each]; rewrite ?P, ?E);
    simpl; rewrite ?E; simpl; eauto.
Qed.

(** X10: with an empty slice list, [plan] raises the [IndexError] of
    [slices[0]] or [slices[-1]] when the architecture has pre- or
    post-weights, and no task is planned; without such weights it returns the
    plan made of a finalizer without save tasks and of the tokenizer task, if
    any. *)
Theorem plan_with_empty_slice_list (self : MergePlanner) :
  slices (config self) = Some [] ->
  (pre_weights (arch_info self) ++ post_weights (arch_info self) <> [] ->
   plan self = (Raise (IndexError "list index out of range"), set_tasks [] self))
  /\ (pre_weights (arch_info self) ++ post_weights (arch_info self) = [] ->
      plan self
      = (Ok (FinalizeModel [] (_writer_task self) :: tokenizer_tail self),
         set_tasks [FinalizeModel [] (_writer_task self)] self)).
Proof.
  intro E. unfold plan, plan_weights, tokenizer_tail.
  destruct (pre_weights (arch_info self)) as [| w rest] eqn:P;
    destruct (post_weights (arch_info self)) as [| w' rest'] eqn:Q;
    repeat progress
      (unfold bind, modify, ret, get, lift_result;
       cbn [config set_tasks arch_info for_each]; rewrite ?P, ?Q, ?E);
    simpl; rewrite ?E; simpl; (split; [try reflexivity | try discriminate]).
  - intro X. contradiction X. reflexivity.
  - intros _. unfold append_task. simpl.
    destruct (_tokenizer_task self); reflexivity.
Qed.
End PlanShape.

(* ===================================================================== *)
(** ** The errors of planning *)
(* ===================================================================== *)



(** A loop that returns has returned from each of its turns. *)
Lemma for_each_ok_each (S A : Type) (l : list A) (body : A -> M S unit)
    (s s' : S) :
  for_each l body s = (Ok tt, s') ->
  forall x, In x l -> exists sx sx', body x sx = (Ok tt, sx').
Proof.
  revert s. induction l as [| y rest IH]; intros s E x Ix; simpl in *; [tauto |].
  apply bind_inv in E. destruct E as ([] & s1 & E1 & E2).
  destruct Ix as [<- | Ix]; [eauto |].
  eapply IH; eauto.
Qed.

Section PlanErrors.
Context `{Collaborators}.


Lemma plan_slice_ok (d : OutputSliceDefinition) (s s' : MergePlanner) :
  plan_slice d s = (Ok tt, s') ->
  sources d <> [] /\ all_equal_first (slice_lengths_of d) = true.
Proof.
  rewrite plan_slice_outcome.
  destruct (all_equal_first (slice_lengths_of d)); simpl negb; cbv iota;
    [| discriminate].
  unfold slice_lengths_of. destruct (sources d); simpl; [discriminate |].
  intros _. split; [discriminate | reflexivity].
Qed.



End PlanErrors.

(* ===================================================================== *)
(** ** The driver beyond its checks *)
(* ===================================================================== *)

Lemma sum_first_lengths_spec (l : list OutputSliceDefinition) (acc n : Z) :
  sum_first_lengths l acc = Ok n <->
  (forall d, In d l -> sources d <> [])
  /\ n = acc + fold_right Z.add 0 (map first_layers l).
Proof.
  revert acc. induction l as [| d rest IH]; intro acc; simpl.
  - split.
    + intro E. inversion E. split; [tauto | lia].
    + intros (_ & ->). f_equal. lia.
  - unfold first_layers at 1.
    destruct (sources d) as [| src more] eqn:Sd; simpl.
    + split; [discriminate |]. intros (A & _).
      exfalso. apply (A d); auto.
    + fold (layers_of src). rewrite IH. split.
      * intros (A & ->). split; [| lia].
        intros d' [<- | I]; [congruence | auto].
      * intros (A & ->). split; [| lia]. intros d' I. apply A. auto.
Qed.

Lemma warm_up_events (l : list ModelReference) (trace : list Event) :
  for_each l (fun m => emit (LoaderCacheGet m)) trace
  = (Ok tt, trace ++ map LoaderCacheGet l).
Proof.
  revert trace. induction l as [| m rest IH]; intro trace; simpl.
  - rewrite app_nil_r. reflexivity.
  - unfold bind, emit, modify. rewrite IH, <- app_assoc. reflexivity.
Qed.

Section DriverTail.
Context `{Collaborators}.

(** X13: [run_merge] never returns normally, whatever the configuration and
    the options: it ends in the [ValueError] of a refused seed, in the error
    of the output check, in the error raised while the architecture infos
    are obtained, in the error of the architecture check, in the [IndexError]
    of [model_arch_info[0]] or in the [TypeError] of the call of
    [MergePlanner], and in none of these cases has it warmed up the loader,
    run the executor or written anything. *)
Theorem run_merge_always_raises (c : MergeConfiguration) (out : string)
    (o : MergeOptions) (trace : list Event) :
  exists e events,
    run_merge c out o trace = (Raise e, trace ++ events)
    /\ forallb (fun ev => negb (is_work ev)) events = true
    /\ ((seeding o = Raise e /\ exists msg, e = ValueError msg)
        \/ (seeding o = Ok tt
            /\ (e = RuntimeError no_output_message
                \/ (architecture_infos c = Raise e
                    /\ exists msg, e = LoadError msg)
                \/ e = RuntimeError mixing_message
                \/ e = IndexError "list index out of range"
                \/ e = TypeError unexpected_keyword_message))).
Proof.
  rewrite run_merge_outcome. cbv zeta.
  destruct (seeding o) as [[] | e0] eqn:S.
  2: { exists e0, (seed_events o). split; [reflexivity |].
       split; [apply seed_events_no_work |]. left. split; [reflexivity |].
       eapply seeding_raises. exact S. }
  assert (Own : forall e,
             e = RuntimeError no_output_message
             \/ e = RuntimeError mixing_message
             \/ e = IndexError "list index out of range"
             \/ e = TypeError unexpected_keyword_message ->
             (Ok tt = Raise e /\ exists msg, e = ValueError msg)
             \/ (Ok tt = Ok tt
                 /\ (e = RuntimeError no_output_message
                     \/ (architecture_infos c = Raise e
                         /\ exists msg, e = LoadError msg)
                     \/ e = RuntimeError mixing_message
                     \/ e = IndexError "list index out of range"
                     \/ e = TypeError unexpected_keyword_message))).
  { intros e X. right. split; [reflexivity |]. tauto. }
  destruct (negb (output_requested c)).
  { exists (RuntimeError no_output_message), (seed_events o).
    split; [reflexivity |]. split; [apply seed_events_no_work |].
    apply Own. tauto. }
  destruct (architecture_infos c) as [infos | e1] eqn:A.
  2: { exists e1, (seed_events o). split; [reflexivity |].
       split; [apply seed_events_no_work |]. right. split; [reflexivity |].
       right. left. split; [reflexivity |].
       eapply architecture_infos_raises. exact A. }
  assert (Own' : forall e,
             e = RuntimeError mixing_message
             \/ e = IndexError "list index out of range"
             \/ e = TypeError unexpected_keyword_message ->
             (Ok tt = Raise e /\ exists msg, e = ValueError msg)
             \/ (Ok tt = Ok tt
                 /\ (e = RuntimeError no_output_message
                     \/ (Ok infos = Raise e
                         /\ exists msg, e = LoadError msg)
                     \/ e = RuntimeError mixing_message
                     \/ e = IndexError "list index out of range"
                     \/ e = TypeError unexpected_keyword_message))).
  { intros e X. right. split; [reflexivity |]. tauto. }
  destruct (negb (allow_crimes o) && negb (all_same_architecture infos)).
  { exists (RuntimeError mixing_message), (seed_events o).
    split; [reflexivity |]. split; [apply seed_events_no_work |].
    apply Own'. tauto. }
  destruct infos.
  - exists (IndexError "list index out of range"), (seed_events o).
    split; [reflexivity |]. split; [apply seed_events_no_work |].
    apply Own'. tauto.
  - eexists _, _. rewrite <- app_assoc. split; [reflexivity |].
    split; [rewrite forallb_app, seed_events_no_work; reflexivity |].
    apply Own'. tauto.
Qed.

Lemma model_out_config_donor (c : MergeConfiguration) :
  _model_out_config c
  = match donor_of c with
    | Ok m =>
        match loaded (model_config m) with
        | Ok res =>
            Ok (if truthy_opt_str (dtype c)
                then set_torch_dtype (dtype c) res
                else res)
        | Raise e => Raise e
        end
    | Raise e => Raise e
    end.
Proof.
  unfold donor_of, _model_out_config, truthy_opt_str at 3, truthy_str.
  destruct (base_model c) as [[| a rest] |]; simpl.
  - destruct (py_first (referenced_models c)); reflexivity.
  - reflexivity.
  - destruct (py_first (referenced_models c)); reflexivity.
Qed.

Lemma get_donor_tokenizer_outcome (c : MergeConfiguration) (trace : list Event) :
  _get_donor_tokenizer c trace
  = match donor_of c with
    | Ok m =>
        match from_pretrained (path m) with
        | Ok tok => (Ok (Some tok), trace)
        | Raise _ => (Ok None, trace ++ [LogError donor_error])
        end
    | Raise _ => (Ok None, trace ++ [LogError donor_error])
    end.
Proof.
  unfold donor_of, _get_donor_tokenizer, truthy_opt_str, truthy_str.
  destruct (base_model c) as [[| a rest] |]; simpl.
  - destruct (py_first (referenced_models c)) as [m |]; [| reflexivity].
    destruct (from_pretrained (path m)); reflexivity.
  - destruct (from_pretrained _); reflexivity.
  - destruct (py_first (referenced_models c)) as [m |]; [| reflexivity].
    destruct (from_pretrained (path m)); reflexivity.
Qed.

Lemma donor_of_fails (c : MergeConfiguration) (e : exn) :
  donor_of c = Raise e <->
  e = IndexError "list index out of range"
  /\ truthy_opt_str (base_model c) = false /\ referenced_models c = [].
Proof.
  unfold donor_of.
  destruct (truthy_opt_str (base_model c)) eqn:T.
  - destruct (base_model c); [| discriminate].
    split; [discriminate | intros (_ & X & _); discriminate].
  - destruct (referenced_models c); simpl.
    + split; [intro X; inversion X; auto | intros (-> & _); reflexivity].
    + split; [discriminate | intros (_ & _ & X); discriminate].
Qed.

Lemma trace_grows_apart (trace : list Event) (ev : Event) : trace ++ [ev] <> trace.
Proof.
  intro E. apply (f_equal (@length _)) in E. rewrite length_app in E.
  simpl in E. lia.
Qed.

(** X14: [_get_donor_tokenizer] never raises.  The donor is the base model
    when the configuration names one, the first referenced model otherwise.
    The tokenizer is returned, and nothing logged, exactly when there is a
    donor and the tokenizer at the path of the donor loads, and it is that
    tokenizer; [None] is returned after logging one error exactly when the
    configuration has no base model and references no model, or when the
    tokenizer of the donor cannot be loaded. *)
Theorem get_donor_tokenizer_never_raises (c : MergeConfiguration)
    (trace : list Event) :
  (forall tok,
      _get_donor_tokenizer c trace = (Ok (Some tok), trace)
      <-> exists m, donor_of c = Ok m /\ from_pretrained (path m) = Ok tok)
  /\ (_get_donor_tokenizer c trace = (Ok None, trace ++ [LogError donor_error])
      <-> (truthy_opt_str (base_model c) = false /\ referenced_models c = [])
          \/ exists m e, donor_of c = Ok m /\ from_pretrained (path m) = Raise e)
  /\ ((exists tok, _get_donor_tokenizer c trace = (Ok (Some tok), trace))
      \/ _get_donor_tokenizer c trace = (Ok None, trace ++ [LogError donor_error]))
  /\ (forall text,
        base_model c = Some text -> truthy_str text = true ->
        donor_of c = Ok (ModelReference_parse text))
  /\ (truthy_opt_str (base_model c) = false ->
      donor_of c = py_first (referenced_models c)).
Proof.
  rewrite get_donor_tokenizer_outcome.
  split; [| split; [| split; [| split]]].
  - intro tok. destruct (donor_of c) as [m | e] eqn:D.
    + destruct (from_pretrained (path m)) as [tok' | e] eqn:F.
      * split.
        -- intro E. inversion E. subst tok'. eauto.
        -- intros (m' & Em & Et). inversion Em. subst m'. congruence.
      * split; [discriminate |].
        intros (m' & Em & Et). inversion Em. subst m'. congruence.
    + split; [discriminate | intros (m & Em & _); discriminate].
  - destruct (donor_of c) as [m | e] eqn:D.
    + destruct (from_pretrained (path m)) as [tok | e] eqn:F.
      * split; [discriminate |].
        intros [(T & R) | (m' & e & Em & Ee)].
        -- exfalso. assert (X : donor_of c = Raise (IndexError "list index out of range"))
             by (apply donor_of_fails; auto).
           congruence.
        -- inversion Em. subst m'. congruence.
      * split; [intros _; right; eauto | reflexivity].
    + split; [| reflexivity]. intros _. left.
      apply donor_of_fails in D. tauto.
  - destruct (donor_of c) as [m | e]; [| auto].
    destruct (from_pretrained (path m)); eauto.
  - intros text B T. unfold donor_of. rewrite B. simpl. rewrite T. reflexivity.
  - intros T. unfold donor_of. rewrite T. reflexivity.
Qed.

(** X15: the output configuration and the donor tokenizer come from the same
    model: when [_model_out_config] returns, the configuration it returns
    was loaded from the donor (the base model when the configuration names
    one, the first referenced model otherwise), and [_get_donor_tokenizer]
    loads the tokenizer at the path of that very model. *)
Theorem donor_tokenizer_follows_out_config (c : MergeConfiguration)
    (trace : list Event) (cfg : PretrainedConfig) :
  _model_out_config c = Ok cfg ->
  exists m res,
    donor_of c = Ok m
    /\ model_config m = Returned res
    /\ config_of cfg = config_of res
    /\ vocab_size cfg = vocab_size res
    /\ layer_count cfg = layer_count res
    /\ _get_donor_tokenizer c trace
       = match from_pretrained (path m) with
         | Ok tok => (Ok (Some tok), trace)
         | Raise _ => (Ok None, trace ++ [LogError donor_error])
         end.
Proof.
  rewrite model_out_config_donor, get_donor_tokenizer_outcome.
  destruct (donor_of c) as [m | e]; [| discriminate].
  destruct (model_config m) as [res | msg] eqn:L; simpl; [| discriminate].
  intro E. inversion E. exists m, res.
  split; [reflexivity |]. split; [exact L |].
  destruct (truthy_opt_str (dtype c)); repeat split.
Qed.

(** X16: [_model_out_config] raises exactly in two cases: the configuration
    has no base model and references no model, and the exception is the
    [IndexError] of [referenced_models()[0]]; or the configuration of the
    donor model cannot be loaded, and the exception is that of the load.  A
    configuration it returns carries the [dtype] of the merge configuration
    when that is set, and the one of the loaded configuration otherwise. *)
Theorem model_out_config_failure (c : MergeConfiguration) :
  (forall e,
      _model_out_config c = Raise e
      <-> (e = IndexError "list index out of range"
           /\ truthy_opt_str (base_model c) = false
           /\ referenced_models c = [])
          \/ exists m msg, donor_of c = Ok m
                           /\ model_config m = Failed msg
                           /\ e = LoadError msg)
  /\ (forall cfg,
        _model_out_config c = Ok cfg ->
        exists m res,
          donor_of c = Ok m
          /\ model_config m = Returned res
          /\ torch_dtype cfg
             = if truthy_opt_str (dtype c) then dtype c else torch_dtype res).
Proof.
  rewrite model_out_config_donor. split.
  - intro e. destruct (donor_of c) as [m | e0] eqn:D.
    + destruct (model_config m) as [res | msg] eqn:L; simpl.
      * split; [discriminate |].
        intros [(-> & T & R) | (m' & msg & Em & Lm & _)].
        -- assert (X : donor_of c = Raise (IndexError "list index out of range"))
             by (apply donor_of_fails; auto).
           congruence.
        -- inversion Em. subst m'. congruence.
      * split.
        -- intro E. inversion E. right. eauto.
        -- intros [(-> & T & R) | (m' & msg' & Em & Lm & ->)].
           ++ assert (X : donor_of c = Raise (IndexError "list index out of range"))
                by (apply donor_of_fails; auto).
              congruence.
           ++ inversion Em. subst m'. congruence.
    + split.
      * intro E. inversion E. subst e0. left. apply donor_of_fails. exact D.
      * intros [X | (m & msg & Em & _)]; [| discriminate].
        apply donor_of_fails in X. congruence.
  - intros cfg. destruct (donor_of c) as [m | e0]; [| discriminate].
    destruct (model_config m) as [res | msg] eqn:L; simpl; [| discriminate].
    intro E. inversion E. exists m, res.
    split; [reflexivity |]. split; [exact L |].
    destruct (truthy_opt_str (dtype c)); reflexivity.
Qed.

(** X17: the layer count [run_merge] writes to the output configuration is
    the sum, over the slices, of the length of the first source of each
    slice; computing it fails (and is then only logged) exactly when the
    configuration has no slice list or has a slice without source. *)
Theorem output_num_layers_sum (c : MergeConfiguration) (n : Z) :
  output_num_layers c = Ok n
  <-> exists l,
        slices c = Some l
        /\ (forall d, In d l -> sources d <> [])
        /\ n = fold_right Z.add 0 (map first_layers l).
Proof.
  unfold output_num_layers, iterate.
  destruct (slices c) as [l |].
  - rewrite sum_first_lengths_spec. split.
    + intros (A & ->). exists l. auto.
    + intros (l' & E & A & ->). inversion E. subst l'. auto.
  - split; [discriminate | intros (l & E & _); discriminate].
Qed.
End DriverTail.

Section DriverWrites.
Context `{Collaborators}.

(** X18: a run whose executor raises, or whose output configuration cannot
    be built, raises that exception once every referenced model has been
    requested from the loader and the executor has been started, in this
    order, and writes neither a configuration nor a tokenizer. *)
Theorem execute_and_write_failure (c : MergeConfiguration) (out : string)
    (o : MergeOptions) (arch : ArchitectureInfo) (targets : list Task)
    (trace : list Event) (e : exn) :
  executor_run targets (math_device_of o) (storage_device_of o) = Raise e
  \/ ((exists values,
         executor_run targets (math_device_of o) (storage_device_of o) = Ok values)
      /\ _model_out_config c = Raise e) ->
  execute_and_write c out o arch targets trace
  = (Raise e,
     trace ++ map LoaderCacheGet (referenced_models c)
     ++ [ExecutorRun targets (math_device_of o) (storage_device_of o)])
  /\ existsb is_saved
       (map LoaderCacheGet (referenced_models c)
        ++ [ExecutorRun targets (math_device_of o) (storage_device_of o)]) = false.
Proof.
  intro F. split.
  - unfold execute_and_write.
    fold (math_device_of o). fold (storage_device_of o).
    unfold bind at 1. rewrite warm_up_events.
    unfold bind at 1, emit at 1, modify at 1.
    unfold bind at 1, lift_result at 1. rewrite <- app_assoc.
    destruct F as [-> | ((values & ->) & C)]; [reflexivity |].
    unfold bind at 1, lift_result at 1. rewrite C. reflexivity.
  - rewrite existsb_app. simpl. rewrite orb_false_r.
    induction (referenced_models c); simpl; auto.
Qed.

(** X19: once the executor has returned and the output configuration is
    built, the run returns: a vocabulary size or a layer count that cannot be
    worked out, or a donor tokenizer that cannot be loaded, is only logged.
    The output configuration, which is still that of the donor model, is
    saved exactly once, after the warm-up and the execution, and before the
    tokenizer, of which at most one is saved. *)
Theorem execute_and_write_saves_configuration (c : MergeConfiguration)
    (out : string) (o : MergeOptions) (arch : ArchitectureInfo)
    (targets : list Task) (trace : list Event)
    (values : list (Task * TaskValue)) (cfg0 : PretrainedConfig) :
  executor_run targets (math_device_of o) (storage_device_of o) = Ok values ->
  _model_out_config c = Ok cfg0 ->
  exists notes cfg_out last,
    execute_and_write c out o arch targets trace
    = (Ok tt,
       trace ++ map LoaderCacheGet (referenced_models c)
       ++ ExecutorRun targets (math_device_of o) (storage_device_of o)
          :: notes ++ ConfigSaved cfg_out out :: last)
    /\ existsb is_saved notes = false
    /\ config_of cfg_out = config_of cfg0
    /\ torch_dtype cfg_out = torch_dtype cfg0
    /\ (last = []
        \/ (exists tok, last = [TokenizerSaved tok out])
        \/ last = [LogError donor_error]).
Proof.
  intros X C. unfold execute_and_write.
  fold (math_device_of o). fold (storage_device_of o).
  unfold bind at 1. rewrite warm_up_events.
  unfold bind at 1, emit at 1, modify at 1.
  unfold bind at 1, lift_result at 1. rewrite X.
  unfold bind at 1, lift_result at 1. rewrite C.
  destruct (last_tokenizer values) as [tok |];
    [destruct (vocab tok) |];
    destruct (output_num_layers c);
    unfold bind, emit, modify, ret;
    try (destruct (copy_tokenizer o);
         [rewrite get_donor_tokenizer_outcome;
          destruct (donor_of c) as [m |];
          [destruct (from_pretrained (path m)) |] |]);
    rewrite <- ?app_assoc; cbn [app].
  all: lazymatch goal with
       | |- exists notes cfg_out last,
              (_, _ ++ _ ++ _ :: ConfigSaved ?cf _ :: ?l) = _ /\ _ =>
           exists [], cf, l
       | |- exists notes cfg_out last,
              (_, _ ++ _ ++ _ :: ?w :: ConfigSaved ?cf _ :: ?l) = _ /\ _ =>
           exists [w], cf, l
       | |- exists notes cfg_out last,
              (_, _ ++ _ ++ _ :: ?w1 :: ?w2 :: ConfigSaved ?cf _ :: ?l) = _ /\ _ =>
           exists [w1; w2], cf, l
       end.
  all: split; [reflexivity |].
  all: split; [reflexivity |].
  all: split; [reflexivity |].
  all: split; [reflexivity |].
  all: eauto.
Qed.
End DriverWrites.

(* ===================================================================== *)
(** ** The layer count of the output against the plan *)
(* ===================================================================== *)

Lemma slice_layers_first (d : OutputSliceDefinition) :
  slice_layers d = Z.to_nat (first_layers d).
Proof. unfold slice_layers, first_layers. destruct (sources d); reflexivity. Qed.

Lemma slice_layers_sum (l : list OutputSliceDefinition) :
  (forall d, In d l -> 0 <= first_layers d) ->
  Z.of_nat (list_sum (map slice_layers l))
  = fold_right Z.add 0 (map first_layers l)
  /\ 0 <= fold_right Z.add 0 (map first_layers l).
Proof.
  induction l as [| d rest IH]; intro P; simpl; [split; lia |].
  destruct IH as [IH1 IH2]; [intros; apply P; simpl; auto |].
  pose proof (P d (or_introl eq_refl)) as Pd.
  rewrite Nat2Z.inj_add, IH1, slice_layers_first. split; lia.
Qed.

Section LayerCount.
Context `{Collaborators}.

(** A returned plan was made from slices that all have a source. *)
Lemma plan_ok_slices (self self' : MergePlanner) (res : list Task) :
  plan self = (Ok res, self') ->
  exists l, slices (config self) = Some l
            /\ forall d, In d l ->
                         sources d <> []
                         /\ all_equal_first (slice_lengths_of d) = true.
Proof.
  intro E. pose proof (plan_outcome self) as O.
  destruct (plan_weights (set_tasks [] self)) as [[[] | e] planned] eqn:W;
    [| congruence].
  clear O. unfold plan_weights in W. unfold bind at 1, get at 1 in W.
  apply bind_inv in W. destruct W as ([] & s1 & _ & W).
  apply bind_inv in W. destruct W as (l & s1' & I & W).
  unfold lift_result in I. cbn [config set_tasks] in I.
  destruct (slices (config self)) as [sl |]; simpl in I; [| discriminate].
  inversion I. subst l s1'. clear I.
  apply bind_inv in W. destruct W as ([] & s2 & W & _).
  exists sl. split; [reflexivity |]. intros d Id.
  destruct (for_each_ok_each _ _ _ W d Id) as (sx & sx' & Ok_d).
  eapply plan_slice_ok. exact Ok_d.
Qed.

(** X20: for a returned plan whose slices have no negative length, the layer
    count [n] that [run_merge] computes for the output configuration is the
    number of layers the planner planned: the plan has one save task per
    pre-weight, per post-weight and per layer template for each of the [n]
    layers. *)
Theorem planned_layers_match_layer_count (self self' : MergePlanner)
    (res : list Task) :
  plan self = (Ok res, self') ->
  (forall l d, slices (config self) = Some l -> In d l -> 0 <= first_layers d) ->
  exists n,
    output_num_layers (config self) = Ok n
    /\ 0 <= n
    /\ Z.of_nat (length (filter is_save res))
       = Z.of_nat (length (pre_weights (arch_info self)))
         + Z.of_nat (length (layer_weight_formats (arch_info self))) * n
         + Z.of_nat (length (post_weights (arch_info self))).
Proof.
  intros E P.
  destruct (plan_ok_slices _ E) as (l & Sl & W).
  destruct (plan_saves _ E) as (l' & saves & Sl' & F & N & ->).
  rewrite Sl in Sl'. inversion Sl'. subst l'. clear Sl'.
  destruct (slice_layers_sum l (fun d Id => P l d Sl Id)) as [Sum Pos].
  exists (fold_right Z.add 0 (map first_layers l)).
  split; [| split; [exact Pos |]].
  - unfold output_num_layers. rewrite Sl. simpl iterate. cbv iota.
    apply sum_first_lengths_spec. split; [| lia].
    intros d Id. apply W. exact Id.
  - assert (X : filter is_save
                  (saves ++ FinalizeModel saves (_writer_task self)
                            :: tokenizer_tail self) = saves).
    { rewrite filter_app, (filter_all _ F). simpl.
      unfold tokenizer_tail. destruct (_tokenizer_task self); simpl;
        apply app_nil_r. }
    rewrite X, <- (save_names_length _ F), N, plan_names_length, <- Sum. lia.
Qed.
End LayerCount.

(* ===================================================================== *)
(** ** The tasks of one layer *)
(* ===================================================================== *)

(** A loop whose turns each append one save task appends one task per
    element, in order. *)
Lemma for_each_appends (A : Type) (s0 : MergePlanner) (Q : A -> Task -> Prop)
    (l : list A) (body : A -> M MergePlanner unit) :
  (forall x s s', In x l -> grows s0 s -> body x s = (Ok tt, s') ->
                  exists t, s' = append_task t s /\ is_save t = true /\ Q x t) ->
  forall s s', grows s0 s -> for_each l body s = (Ok tt, s') ->
               exists ts, s' = set_tasks (_tasks s ++ ts) s /\ Forall2 Q l ts.
Proof.
  induction l as [| x rest IH]; intros Hb s s' G E; simpl in *.
  - inversion E. exists []. split; [| constructor].
    rewrite app_nil_r. symmetry. apply set_tasks_same.
  - apply bind_inv in E. destruct E as ([] & s1 & E1 & E2).
    destruct (Hb x s s1 (or_introl eq_refl) G E1) as (t & -> & St & Qt).
    assert (G1 : grows s0 (append_task t s)).
    { eapply grows_trans; [exact G |]. exists [t]. split; [| reflexivity].
      simpl. rewrite St. reflexivity. }
    destruct (IH (fun y sa sb Iy => Hb y sa sb (or_intror Iy)) _ _ G1 E2)
      as (ts & -> & F).
    exists (t :: ts). split; [| constructor; assumption].
    unfold append_task, set_tasks. simpl. rewrite <- app_assoc. reflexivity.
Qed.

Section LayerTasks.
Context `{Collaborators}.

(** X21: a call of [plan_layer] that returns has appended one save task per
    layer template of the architecture, in the order of the templates; the
    task of a template writes the template formatted with the layer counter
    of the planner and gathers, from each source model, the template
    formatted with the first layer of that source plus the layer offset. *)
Theorem plan_layer_tasks (sources : list InputSliceDefinition)
    (layer_offset : Z) (t : Q) (cfg_reader : ConfigReader)
    (self self' : MergePlanner) :
  plan_layer sources layer_offset t cfg_reader self = (Ok tt, self') ->
  exists tasks,
    self' = set_tasks (_tasks self ++ tasks) self
    /\ Forall2 (layer_task self sources layer_offset)
         (layer_weight_formats (arch_info self)) tasks.
Proof.
  unfold plan_layer. unfold bind at 1, get at 1. intro E.
  eapply (for_each_appends (s0 := self)); [| apply grows_refl | exact E].
  intros fmt s s' _ G Eb. unfold bind, get in Eb.
  apply grows_keeps in G. destruct G as (_ & _ & Wt & _ & L & _).
  apply plan_tensor_result in Eb.
  destruct Eb as (gp & tp & _ & _ & ->).
  eexists. split; [reflexivity |]. split; [reflexivity |].
  eexists. split; [reflexivity |]. cbn [tensor_name tensor_task tensors
                                         tensor_names writer_task].
  rewrite L, Wt. repeat split.
Qed.
End LayerTasks.

(* ===================================================================== *)
(** ** The further properties on concrete configurations *)
(* ===================================================================== *)

Lemma plan_tensor_gathers_each_model_once_witness :
  exists save,
    snd (plan_tensor (H := sample) "h.0.w" ["h.0.w"; "h.5.w"] [gpt2; gpt2]
           (sample_weight_reader "h.0.w") stack_planner)
    = append_task (SaveTensorTask save) stack_planner
    /\ NoDup (map fst (tensor_names (tensors (tensor_task save))))
    /\ (forall m, In m (map fst (tensor_names (tensors (tensor_task save))))
                  <-> In m (map fst (combine [gpt2; gpt2] ["h.0.w"; "h.5.w"])))
    /\ (forall front back m n,
          combine [gpt2; gpt2] ["h.0.w"; "h.5.w"] = front ++ (m, n) :: back ->
          ~ In m (map fst back) ->
          dict_get ModelReference_eqb
            (tensor_names (tensors (tensor_task save))) m = Some n)
    /\ map fst (tensor_parameters (tensor_task save))
       = map fst (tensor_names (tensors (tensor_task save))).
Proof.
  apply (plan_tensor_gathers_each_model_once (H := sample) "h.0.w"
           ["h.0.w"; "h.5.w"] [gpt2; gpt2] (sample_weight_reader "h.0.w")
           stack_planner).
  vm_compute. reflexivity.
Defined.

Lemma plan_tensor_resolves_declared_parameters_witness :
  exists save,
    snd (plan_tensor (H := lenient) "h.0.w" ["h.0.w"] [gpt2]
           (sample_weight_reader "h.0.w") (gpt2_planner "linear" 2))
    = append_task (SaveTensorTask save) (gpt2_planner "linear" 2)
    /\ NoDup (map fst (parameters (tensor_task save)))
    /\ (forall p,
          In p (method_parameters (Collaborators := lenient)
                  (task_method (tensor_task save))) ->
          exists v, dict_get String.eqb (parameters (tensor_task save)) (name p)
                    = Some v)
    /\ (forall k v,
          dict_get String.eqb (parameters (tensor_task save)) k = Some v ->
          exists p,
            In p (method_parameters (Collaborators := lenient)
                    (task_method (tensor_task save)))
            /\ name p = k
            /\ parameter (Collaborators := lenient)
                 (for_tensor (Collaborators := lenient)
                    (for_in_slices (Collaborators := lenient)
                       (sample_weight_reader "h.0.w") None) "h.0.w")
                 k None (required p) (default_value p) = Some v).
Proof.
  apply (plan_tensor_resolves_declared_parameters (H := lenient) "h.0.w"
           ["h.0.w"] [gpt2] (sample_weight_reader "h.0.w")
           (gpt2_planner "linear" 2)).
  vm_compute. reflexivity.
Defined.

Lemma plan_output_names_witness :
  exists l,
    slices (config stack_planner) = Some l
    /\ save_names (planned_tasks (fst (plan (H := sample) stack_planner)))
       = pre_weights (arch_info stack_planner)
         ++ flat_map
              (fun d =>
                 concat (repeat
                           (map (fun name_format =>
                                   format_idx name_format
                                     (_current_layers stack_planner))
                                (layer_weight_formats (arch_info stack_planner)))
                           (slice_layers d))) l
         ++ post_weights (arch_info stack_planner).
Proof.
  apply (plan_output_names (H := sample) stack_planner
           (self' := snd (plan (H := sample) stack_planner))).
  vm_compute. reflexivity.
Defined.

Lemma plan_task_count_witness :
  exists l,
    slices (config stack_planner) = Some l
    /\ length (filter is_save
                 (planned_tasks (fst (plan (H := sample) stack_planner))))
       = (length (pre_weights (arch_info stack_planner))
          + length (layer_weight_formats (arch_info stack_planner))
            * list_sum (map slice_layers l)
          + length (post_weights (arch_info stack_planner)))%nat
    /\ length (planned_tasks (fst (plan (H := sample) stack_planner)))
       = (length (filter is_save
                    (planned_tasks (fst (plan (H := sample) stack_planner))))
          + 1 + length (tokenizer_tail stack_planner))%nat.
Proof.
  apply (plan_task_count (H := sample) stack_planner
           (self' := snd (plan (H := sample) stack_planner))).
  vm_compute. reflexivity.
Defined.

Lemma plan_slice_without_sources_witness :
  plan_slice (H := sample) no_source_slice stack_planner
  = (Raise (IndexError "list index out of range"), stack_planner).
Proof.
  apply (plan_slice_without_sources (H := sample) no_source_slice stack_planner).
  reflexivity.
Defined.

Lemma plan_slice_without_layers_witness :
  plan_slice (H := sample) zero_layer_slice stack_planner = (Ok tt, stack_planner).
Proof.
  apply (plan_slice_without_layers (H := sample) zero_layer_slice stack_planner
           (first := mkInputSliceDefinition gpt2 (3, 3)) (rest := [])).
  - reflexivity.
  - intros s [].
  - vm_compute. discriminate.
Defined.

Lemma plan_without_slice_list_witness :
  exists msg,
    plan (H := sample) models_only_planner
    = (Raise (TypeError msg), set_tasks [] models_only_planner).
Proof.
  apply (plan_without_slice_list (H := sample) models_only_planner).
  reflexivity.
Defined.

Lemma plan_with_empty_slice_list_witness :
  plan (H := sample) empty_slices_planner
  = (Raise (IndexError "list index out of range"),
     set_tasks [] empty_slices_planner).
Proof.
  apply (proj1 (plan_with_empty_slice_list (H := sample) empty_slices_planner
                  eq_refl)).
  discriminate.
Defined.



Lemma execute_and_write_failure_witness :
  execute_and_write (H := failing_executor) gpt2_copy_config "out"
    default_MergeOptions gpt2_info [] []
  = (Raise (RuntimeError "out of memory"),
     [] ++ map LoaderCacheGet
             (referenced_models (Collaborators := failing_executor) gpt2_copy_config)
     ++ [ExecutorRun [] (math_device_of default_MergeOptions)
           (storage_device_of default_MergeOptions)])
  /\ existsb is_saved
       (map LoaderCacheGet
          (referenced_models (Collaborators := failing_executor) gpt2_copy_config)
        ++ [ExecutorRun [] (math_device_of default_MergeOptions)
              (storage_device_of default_MergeOptions)]) = false.
Proof.
  apply (execute_and_write_failure (H := failing_executor) gpt2_copy_config "out"
           default_MergeOptions gpt2_info [] []).
  left. reflexivity.
Defined.

Lemma execute_and_write_saves_configuration_witness :
  exists notes cfg_out last,
    execute_and_write (H := sample) gpt2_copy_config "out" default_MergeOptions
      gpt2_info [] []
    = (Ok tt,
       [] ++ map LoaderCacheGet
               (referenced_models (Collaborators := sample) gpt2_copy_config)
       ++ ExecutorRun [] (math_device_of default_MergeOptions)
            (storage_device_of default_MergeOptions)
          :: notes ++ ConfigSaved cfg_out "out" :: last)
    /\ existsb is_saved notes = false
    /\ config_of cfg_out = config_of gpt2_out_config
    /\ torch_dtype cfg_out = torch_dtype gpt2_out_config
    /\ (last = []
        \/ (exists tok, last = [TokenizerSaved tok "out"])
        \/ last = [LogError donor_error]).
Proof.
  apply (execute_and_write_saves_configuration (H := sample) gpt2_copy_config
           "out" default_MergeOptions gpt2_info [] [] (values := [])
           (cfg0 := gpt2_out_config));
    reflexivity.
Defined.

Lemma planned_layers_match_layer_count_witness :
  exists n,
    output_num_layers (config stack_planner) = Ok n
    /\ 0 <= n
    /\ Z.of_nat (length (filter is_save
                           (planned_tasks (fst (plan (H := sample) stack_planner)))))
       = Z.of_nat (length (pre_weights (arch_info stack_planner)))
         + Z.of_nat (length (layer_weight_formats (arch_info stack_planner))) * n
         + Z.of_nat (length (post_weights (arch_info stack_planner))).
Proof.
  apply (planned_layers_match_layer_count (H := sample) stack_planner
           (self' := snd (plan (H := sample) stack_planner))).
  { vm_compute. reflexivity. }
  intros l d E I. vm_compute in E. inversion E. subst l.
  destruct I as [<- | []]. vm_compute. discriminate.
Defined.

Lemma plan_layer_tasks_witness :
  exists tasks,
    snd (plan_layer (H := sample) (sources three_layer_slice) 1 (1 # 2)
           (slice_reader (H := sample) three_layer_slice stack_planner)
           stack_planner)
    = set_tasks (_tasks stack_planner ++ tasks) stack_planner
    /\ Forall2 (layer_task stack_planner (sources three_layer_slice) 1)
         (layer_weight_formats (arch_info stack_planner)) tasks.
Proof.
  apply (plan_layer_tasks (H := sample) (sources three_layer_slice) 1 (1 # 2)
           (slice_reader (H := sample) three_layer_slice stack_planner)
           stack_planner).
  vm_compute. reflexivity.
Defined.

Lemma donor_tokenizer_follows_out_config_witness :
  exists m res,
    donor_of (H := sample) gpt2_copy_config = Ok m
    /\ model_config (Collaborators := sample) m = Returned res
    /\ config_of gpt2_out_config = config_of res
    /\ vocab_size gpt2_out_config = vocab_size res
    /\ layer_count gpt2_out_config = layer_count res
    /\ _get_donor_tokenizer (H := sample) gpt2_copy_config []
       = match from_pretrained (Collaborators := sample) (path m) with
         | Ok tok => (Ok (Some tok), [])
         | Raise _ => (Ok None, [] ++ [LogError donor_error])
         end.
Proof.
  apply (donor_tokenizer_follows_out_config (H := sample) gpt2_copy_config []
           (cfg := gpt2_out_config)).
  reflexivity.
Defined.
